(** * A shallow embedding of the MCP-Gemini PR agent (mcp_gemini_client.py)
    and of the stand-alone webhook probe (test_slack.py).

    The Python program is asynchronous orchestration over three external
    services.  We model it in a reader/state/exception monad:
    - the reader component [env] holds the external collaborators
      (the MCP session's [call_tool], Gemini's [generate_content],
      [json.loads], Python's [str] of a decoded JSON value, [requests.post]);
    - the state component [st] holds the observable trace of effects
      (tool calls, AI calls, HTTP posts, prints, file writes) and the lines
      still to be read by [input()];
    - the result is either a value or a raised Python exception. *)

From Stdlib Require Import String List Ascii Bool ZArith Lia.
Import ListNotations.
Open Scope string_scope.
Set Warnings "-register-all".

(** ** Python values used by the client *)

(** A value decoded by [json.loads]. *)
Inductive json : Type :=
| JNull
| JBool (b : bool)
| JNum (n : Z)
| JStr (s : string)
| JArr (xs : list json)
| JObj (kvs : list (string * json)).

(** A value placed in a tool's argument dictionary. *)
Inductive pyval : Type :=
| PStr (s : string)
| PInt (n : Z).

Definition args := list (string * pyval).

(** A content block of an MCP [CallToolResult]. Only [TextContent] has a
    [.text] attribute. *)
Inductive block : Type :=
| TextContent (text : string)
| ImageContent (data : string)
| EmbeddedResource (uri : string).

(** Python exceptions the client raises or lets through. *)
Inductive exn : Type :=
| RuntimeError (msg : string)
| ValueError (msg : string)
| KeyError (msg : string)
| TypeError (msg : string)
| AttributeError (msg : string)
| EOFError
| RemoteError (msg : string)  (* any [Exception] raised by a remote service *)
| OSError (msg : string).      (* [open()] or [write()] failing *)

(** Observable effects. *)
Inductive event : Type :=
| Print (s : string)
| ToolCall (name : string) (arguments : args)
| AICall (full_prompt : string)
| WriteFile (filename : string) (contents : string)
| Clipboard (contents : string)
| HttpPost (url : string) (body : json) (timeout : Z).

(** The external collaborators.  A [inl msg] answer means the call raised
    an exception whose [str()] is [msg]. *)
Record env : Type := {
  tool_backend : string -> args -> string + list block;
  gemini_backend : string -> string + string;
  json_loads : string -> option json;   (* [None]: JSONDecodeError *)
  py_str : json -> string;
  http_post : string -> json -> Z -> string + (Z * string);
  pyperclip_installed : bool;
  (* [with open(filename, 'w') as f: f.write(contents)]: [Some e] when
     [open()] or [write()] raises [e] (an [OSError] for a missing directory
     or a name that is too long, a [ValueError] for a NUL in the name) *)
  file_write : string -> string -> option exn;
  (* [pyperclip.copy(text)] once the import succeeded: [Some e] when it
     raises [e] (no clipboard mechanism, for instance) *)
  clipboard_copy : string -> option exn
}.

Record st : Type := mkSt {
  log : list event;     (* most recent event first *)
  stdin : list string
}.

Inductive result (A : Type) : Type :=
| Ok (a : A)
| Err (e : exn).
Arguments Ok {A} a.
Arguments Err {A} e.

Definition M (A : Type) : Type := env -> st -> result A * st.

Definition ret {A} (a : A) : M A := fun _ s => (Ok a, s).

Definition bind {A B} (m : M A) (k : A -> M B) : M B :=
  fun E s =>
    match m E s with
    | (Ok a, s') => k a E s'
    | (Err e, s') => (Err e, s')
    end.

Notation "x <- m ;; k" := (bind m (fun x => k))
  (at level 61, m at next level, right associativity).
Notation "m ;; k" := (bind m (fun _ => k))
  (at level 61, right associativity).

Definition raise {A} (e : exn) : M A := fun _ s => (Err e, s).

(** [try: m  except <handled> as e: h e] *)
Definition try_except {A} (m : M A) (handled : exn -> bool) (h : exn -> M A)
  : M A :=
  fun E s =>
    match m E s with
    | (Err e, s') => if handled e then h e E s' else (Err e, s')
    | r => r
    end.

Definition emit (ev : event) : M unit :=
  fun _ s => (Ok tt, mkSt (ev :: log s) (stdin s)).

Definition print (msg : string) : M unit := emit (Print msg).

Definition ask : M env := fun E s => (Ok E, s).

(** [input(prompt)]: echoes the prompt and reads one line; at end of input
    it raises [EOFError]. *)
Definition input (prompt : string) : M string :=
  fun _ s =>
    match stdin s with
    | [] => (Err EOFError, mkSt (Print prompt :: log s) [])
    | l :: rest => (Ok l, mkSt (Print prompt :: log s) rest)
    end.

(** [except Exception]: every exception class of the model derives from
    [Exception]. *)
Definition is_exception (e : exn) : bool := true.

(** [except (KeyboardInterrupt, EOFError)] *)
Definition is_eof (e : exn) : bool :=
  match e with EOFError => true | _ => false end.

(** ** String helpers (Python [str] methods over single-byte characters) *)

(** [str.isspace] on the ASCII range. *)
Definition is_space (c : ascii) : bool :=
  let n := nat_of_ascii c in
  (n =? 32)%nat || ((9 <=? n)%nat && (n <=? 13)%nat)
  || ((28 <=? n)%nat && (n <=? 31)%nat).

Fixpoint lstrip (s : string) : string :=
  match s with
  | EmptyString => EmptyString
  | String c rest => if is_space c then lstrip rest else s
  end.

Fixpoint rev_str (s : string) (acc : string) : string :=
  match s with
  | EmptyString => acc
  | String c rest => rev_str rest (String c acc)
  end.

Definition rstrip (s : string) : string :=
  rev_str (lstrip (rev_str s EmptyString)) EmptyString.

(** [str.strip()] *)
Definition strip (s : string) : string := rstrip (lstrip s).

Definition lower_char (c : ascii) : ascii :=
  let n := nat_of_ascii c in
  if (65 <=? n)%nat && (n <=? 90)%nat then ascii_of_nat (n + 32) else c.

(** [str.lower()] *)
Fixpoint lower (s : string) : string :=
  match s with
  | EmptyString => EmptyString
  | String c rest => String (lower_char c) (lower rest)
  end.

(** A Python [str] is held as its UTF-8 bytes.  A continuation byte
    ([0b10xxxxxx]) continues the code point started before it. *)
Definition is_cont (c : ascii) : bool :=
  let k := nat_of_ascii c in ((128 <=? k)%nat && (k <? 192)%nat)%bool.

(** [len(s)]: the number of code points. *)
Fixpoint py_len (s : string) : nat :=
  match s with
  | EmptyString => 0
  | String c rest => (if is_cont c then 0 else 1) + py_len rest
  end.

(** [s[:n]]: the first [n] code points, with all their bytes. *)
Fixpoint slice_to (n : nat) (s : string) : string :=
  match s with
  | EmptyString => EmptyString
  | String c rest =>
      if is_cont c then String c (slice_to n rest)
      else match n with
           | O => EmptyString
           | S m => String c (slice_to m rest)
           end
  end.

(** [c * n] for a string [c] *)
Fixpoint repeat_str (n : nat) (c : string) : string :=
  match n with O => "" | S k => c ++ repeat_str k c end.

(** [str(list(d.keys()))] for string keys. *)
Definition py_list_repr (ks : list string) : string :=
  "[" ++ String.concat ", " (map (fun k => "'" ++ k ++ "'") ks) ++ "]".

(** ** The client object *)

(** [available_tools] / [available_prompts]: Python dicts from names to
    descriptors, in insertion order; a descriptor is reduced to its
    optional [description]. *)
Definition catalog := list (string * option string).

Definition keys (c : catalog) : list string := map fst c.

Definition mem (k : string) (c : catalog) : bool :=
  existsb (String.eqb k) (keys c).

Record client : Type := mkClient {
  session : bool;               (* [self.session] is a live ClientSession *)
  available_tools : catalog;
  available_prompts : catalog
}.

(** [str(e)] of a modelled exception. *)
Definition exn_str (e : exn) : string :=
  match e with
  | RuntimeError m | ValueError m | KeyError m | TypeError m
  | AttributeError m | RemoteError m | OSError m => m
  | EOFError => ""
  end.

Definition nl : string := String (ascii_of_nat 10) EmptyString.

(** ** Python operators on decoded JSON values *)

Definition json_type_name (j : json) : string :=
  match j with
  | JNull => "NoneType" | JBool _ => "bool" | JNum _ => "int"
  | JStr _ => "str" | JArr _ => "list" | JObj _ => "dict"
  end.

Definition contains_substring (sub s : string) : bool :=
  match String.index 0 sub s with Some _ => true | None => false end.

(** [k in j] *)
Definition json_in (k : string) (j : json) : M bool :=
  match j with
  | JObj kvs => ret (existsb (fun kv => String.eqb (fst kv) k) kvs)
  | JArr xs =>
      ret (existsb (fun x => match x with JStr s => String.eqb s k | _ => false end) xs)
  | JStr s => ret (contains_substring k s)
  | _ => raise (TypeError ("argument of type '" ++ json_type_name j
                           ++ "' is not iterable"))
  end.

(** Lookup in a decoded object; the last binding of a key wins, as for
    [json.loads]. *)
Definition obj_lookup (k : string) (kvs : list (string * json)) : option json :=
  fold_left (fun acc kv => if String.eqb (fst kv) k then Some (snd kv) else acc)
            kvs None.

(** [j[k]] *)
Definition json_getitem (j : json) (k : string) : M json :=
  match j with
  | JObj kvs =>
      match obj_lookup k kvs with
      | Some v => ret v
      | None => raise (KeyError ("'" ++ k ++ "'"))
      end
  | JArr _ => raise (TypeError "list indices must be integers or slices, not str")
  | JStr _ => raise (TypeError "string indices must be integers, not 'str'")
  | _ => raise (TypeError ("'" ++ json_type_name j ++ "' object is not subscriptable"))
  end.

(** [j.get(k, default)] *)
Definition json_get (j : json) (k : string) (default : json) : M json :=
  match j with
  | JObj kvs =>
      match obj_lookup k kvs with Some v => ret v | None => ret default end
  | _ => raise (AttributeError ("'" ++ json_type_name j
                                ++ "' object has no attribute 'get'"))
  end.

(** [f"{v}"] for a decoded value *)
Definition fmt (j : json) : M string := E <- ask ;; ret (py_str E j).

(** [analysis_prompt] of [analyze_ci_status], after [.format(events=..., workflows=...)]. *)
Definition ci_analysis_prompt (events workflows : string) : string :=
  "
            Analyze the CI/CD status and provide insights:
            
            Recent Events:
            " ++ events ++
  "
            
            Workflow Status:
            " ++ workflows ++
  "
            
            Please provide:
            1. Overall CI/CD health status
            2. Any failing workflows and possible causes
            3. Trends or patterns you notice
            4. Recommendations for improvement
            ".

(** [alert_prompt] of [send_ci_alert], after [.format(workflow_data=...)]. *)
Definition alert_prompt (workflow_data : string) : string :=
  "
            Create a Slack alert message based on this CI status:
            " ++ workflow_data ++
  "
            
            Format it as a concise Slack message with:
            - Current status (✅ or ❌)
            - Key information
            - Any required actions
            
            Keep it under 200 characters for Slack.
            ".

(** [analysis_prompt] of [analyze_pr_changes]. *)
Definition pr_analysis_prompt : string :=
  "
        Analyze the following git changes and provide:
        1. A summary of what this PR does
        2. The type of change (bug, feature, docs, refactor, test, performance, security)
        3. Key files affected
        4. Potential risks or considerations
        5. Suggested PR title and description
        
        Be concise but thorough in your analysis.
        ".

(** [change_type_prompt] of [generate_pr_description]. *)
Definition change_type_prompt : string :=
  "
        Based on your previous analysis, what is the primary type of this change? 
        Respond with just one word: bug, feature, docs, refactor, test, performance, or security
        ".

(** The f-string [fill_template_prompt] of [generate_pr_description]. *)
Definition fill_template_prompt (ai_analysis template_content : string) : string :=
  "
            You are an expert software developer creating a professional PR description.
            
            CONTEXT:
            " ++ ai_analysis ++
  "
            
            TASK:
            Fill out this PR template with specific, accurate content based on the git changes above:
            
            " ++ template_content ++
  "
            
            REQUIREMENTS:
            - Use specific file names, function names, and technical details from the analysis
            - Write clear, concise descriptions
            - Include relevant technical context
            - Keep the same template structure and formatting
            - Replace all placeholder text with actual content
            
            Generate a complete, professional PR description:
            ".

(** ** MCPGeminiClient methods *)

Definition block_text (b : block) : M string :=
  match b with
  | TextContent t => ret t
  | ImageContent _ =>
      raise (AttributeError "'ImageContent' object has no attribute 'text'")
  | EmbeddedResource _ =>
      raise (AttributeError "'EmbeddedResource' object has no attribute 'text'")
  end.

(** [await self.session.call_tool(name, arguments)] *)
Definition session_call_tool (name : string) (a : args) : M (list block) :=
  E <- ask ;;
  emit (ToolCall name a) ;;
  match tool_backend E name a with
  | inl m => raise (RemoteError m)
  | inr content => ret content
  end.

(** [call_mcp_tool(self, tool_name, arguments=None)] *)
Definition call_mcp_tool (self : client) (tool_name : string)
    (arguments : option args) : M string :=
  if negb (session self) then raise (RuntimeError "Not connected to MCP server")
  else if negb (mem tool_name (available_tools self)) then
    raise (ValueError ("Tool '" ++ tool_name ++ "' not available. Available tools: "
                       ++ py_list_repr (keys (available_tools self))))
  else
    print ("🔧 Calling tool: " ++ tool_name) ;;
    result <- session_call_tool tool_name
                (match arguments with Some a => a | None => [] end) ;;
    match result with
    | [] => ret ""
    | b :: _ => block_text b
    end.

(** [self.model.generate_content(full_prompt).text] *)
Definition generate_content (full_prompt : string) : M string :=
  E <- ask ;;
  emit (AICall full_prompt) ;;
  match gemini_backend E full_prompt with
  | inl m => raise (RemoteError m)
  | inr text => ret text
  end.

(** [f"{context}\n\n{prompt}" if context else prompt] *)
Definition full_prompt_of (prompt context : string) : string :=
  if String.eqb context "" then prompt else context ++ nl ++ nl ++ prompt.

(** [analyze_with_gemini(self, prompt, context="")] *)
Definition analyze_with_gemini (prompt context : string) : M string :=
  let full_prompt := full_prompt_of prompt context in
  try_except
    (print "🧠 Analyzing with Gemini..." ;;
     generate_content full_prompt)
    is_exception
    (fun e => ret ("Error calling Gemini API: " ++ exn_str e)).

(** The dictionary returned by [analyze_pr_changes]. *)
Record pr_analysis : Type := mkAnalysis {
  changes_data : json;
  ai_analysis : string
}.

(** [changes_args] of [analyze_pr_changes]. *)
Definition changes_args (base_branch : string) (working_directory : option string) : args :=
  app [("base_branch", PStr base_branch)]
    (match working_directory with
     | Some wd => if String.eqb wd "" then [] else [("working_directory", PStr wd)]
     | None => []
     end).

(** [analyze_pr_changes(self, base_branch="main", working_directory=None)] *)
Definition analyze_pr_changes (self : client) (base_branch : string)
    (working_directory : option string) : M pr_analysis :=
  changes_data <- call_mcp_tool self "analyze_file_changes"
                    (Some (changes_args base_branch working_directory)) ;;
  E <- ask ;;
  let changes_json :=
    match json_loads E changes_data with
    | Some j => j
    | None => JObj [("error", JStr "Failed to parse changes data");
                    ("raw", JStr changes_data)]
    end in
  gemini_analysis <- analyze_with_gemini pr_analysis_prompt changes_data ;;
  ret (mkAnalysis changes_json gemini_analysis).

(** [suggest_pr_template(self, analysis_summary, change_type)] *)
Definition suggest_pr_template (self : client) (analysis_summary change_type : string)
    : M json :=
  template_data <- call_mcp_tool self "suggest_template"
                     (Some [("changes_summary", PStr analysis_summary);
                            ("change_type", PStr change_type)]) ;;
  E <- ask ;;
  match json_loads E template_data with
  | Some j => ret j
  | None =>
      print ("❌ Raw template response: " ++ template_data) ;;
      ret (JObj [("error", JStr "Failed to parse template data");
                 ("raw", JStr template_data)])
  end.

(** [for x in xs: f(x)] *)
Fixpoint for_each {A} (f : A -> M unit) (xs : list A) : M unit :=
  match xs with
  | [] => ret tt
  | x :: rest => f x ;; for_each f rest
  end.

Definition get_state : M st := fun _ s => (Ok s, s).

(** The message built in the Slack branch of [post_generation_options]. *)
Definition pr_slack_message (change_type pr_description : string) : string :=
  "📝 New PR Ready for Review (" ++ change_type ++ ")" ++ nl ++ nl
  ++ slice_to 500 pr_description ++ "...".

(** [post_generation_options(self, pr_description, change_type)] *)
Definition post_generation_options (self : client) (pr_description change_type : string)
    : M unit :=
  print (nl ++ repeat_str 40 "=") ;;
  print "📋 What would you like to do next?" ;;
  print "1. Save to file" ;;
  print "2. Send Slack notification" ;;
  print "3. Copy to clipboard" ;;
  print "4. Continue" ;;
  try_except
    (line <- input (nl ++ "Enter choice (1-4): ") ;;
     let choice := strip line in
     if String.eqb choice "1" then
       let filename := "pr_description_" ++ change_type ++ ".md" in
       E <- ask ;;
       match file_write E filename pr_description with
       | Some e => raise e
       | None =>
           emit (WriteFile filename pr_description) ;;
           print ("💾 Saved to " ++ filename)
       end
     else if String.eqb choice "2" then
       if mem "send_slack_notification" (available_tools self) then
         let slack_message := pr_slack_message change_type pr_description in
         result <- call_mcp_tool self "send_slack_notification"
                     (Some [("message", PStr slack_message)]) ;;
         print ("📤 Slack result: " ++ result)
       else print "❌ Slack tool not available"
     else if String.eqb choice "3" then
       E <- ask ;;
       if pyperclip_installed E then
         match clipboard_copy E pr_description with
         | Some e => raise e
         | None =>
             emit (Clipboard pr_description) ;;
             print "📋 Copied to clipboard"
         end
       else print "❌ pyperclip not installed. Install with: pip install pyperclip"
     else ret tt)
    is_eof
    (fun _ => ret tt).

(** [generate_pr_description(self, working_directory=None, base_branch="main")] *)
Definition generate_pr_description (self : client) (working_directory : option string)
    (base_branch : string) : M unit :=
  print "🔍 Analyzing PR Changes..." ;;
  print (repeat_str 40 "=") ;;
  (* Step 1 *)
  analysis <- analyze_pr_changes self base_branch working_directory ;;
  has_error <- json_in "error" (changes_data analysis) ;;
  if has_error then
    err <- json_getitem (changes_data analysis) "error" ;;
    err_s <- fmt err ;;
    print ("❌ Error analyzing changes: " ++ err_s)
  else
    print "📊 Changes analyzed successfully!" ;;
    print (nl ++ repeat_str 60 "=") ;;
    print "🤖 AI Analysis:" ;;
    print (repeat_str 60 "=") ;;
    print (ai_analysis analysis) ;;
    (* Step 2 *)
    answer <- analyze_with_gemini change_type_prompt (ai_analysis analysis) ;;
    let change_type := lower (strip answer) in
    (* Step 3 *)
    print (nl ++ "🎯 Identified change type: " ++ change_type) ;;
    print "📋 Getting template suggestion..." ;;
    template_suggestion <- suggest_pr_template self (ai_analysis analysis) change_type ;;
    has_error' <- json_in "error" template_suggestion ;;
    if negb has_error' then
      print (nl ++ repeat_str 60 "=") ;;
      print "📝 Recommended PR Template:" ;;
      print (repeat_str 60 "=") ;;
      rt <- json_getitem template_suggestion "recommended_template" ;;
      ty <- json_getitem rt "type" ;;
      ty_s <- fmt ty ;;
      print ("Template: " ++ ty_s) ;;
      rs <- json_getitem template_suggestion "reasoning" ;;
      rs_s <- fmt rs ;;
      print ("Reasoning: " ++ rs_s) ;;
      tc <- json_getitem template_suggestion "template_content" ;;
      tc_s <- fmt tc ;;
      print (nl ++ "Template Content:" ++ nl ++ tc_s) ;;
      (* Step 4 *)
      tc' <- json_getitem template_suggestion "template_content" ;;
      tc_s' <- fmt tc' ;;
      filled_template <- analyze_with_gemini
                           (fill_template_prompt (ai_analysis analysis) tc_s') "" ;;
      print (nl ++ repeat_str 60 "=") ;;
      print "✅ Generated PR Description:" ;;
      print (repeat_str 60 "=") ;;
      print filled_template ;;
      (* Step 5 *)
      post_generation_options self filled_template change_type
    else
      e <- json_get template_suggestion "error" (JStr "Unknown error") ;;
      e_s <- fmt e ;;
      print ("❌ Error getting template: " ++ e_s).

(** [analyze_ci_status(self)] *)
Definition analyze_ci_status (self : client) : M unit :=
  print "🔍 Analyzing CI/CD Status..." ;;
  print (repeat_str 40 "=") ;;
  try_except
    (events_data <- call_mcp_tool self "get_recent_actions_events"
                      (Some [("limit", PInt 10)]) ;;
     workflow_data <- call_mcp_tool self "get_workflow_status" None ;;
     analysis <- analyze_with_gemini (ci_analysis_prompt events_data workflow_data) "" ;;
     print "📊 CI/CD Analysis:" ;;
     print (repeat_str 30 "=") ;;
     print analysis)
    is_exception
    (fun e => print ("❌ Error analyzing CI status: " ++ exn_str e)).

(** [send_ci_alert(self)] *)
Definition send_ci_alert (self : client) : M unit :=
  print "📢 Sending CI Alert..." ;;
  print (repeat_str 25 "=") ;;
  try_except
    (if negb (mem "send_slack_notification" (available_tools self)) then
       print "❌ Slack notification tool not available"
     else
       workflow_data <- call_mcp_tool self "get_workflow_status" None ;;
       message <- analyze_with_gemini (alert_prompt workflow_data) "" ;;
       result <- call_mcp_tool self "send_slack_notification"
                   (Some [("message", PStr message)]) ;;
       print "📤 Slack Message:" ;;
       print message ;;
       print (nl ++ "📋 Result: " ++ result))
    is_exception
    (fun e => print ("❌ Error sending Slack alert: " ++ exn_str e)).

(** [hasattr(x, 'description') and x.description] *)
Definition print_description (d : option string) : M unit :=
  match d with
  | Some ds => if String.eqb ds "" then ret tt else print ("   " ++ ds)
  | None => ret tt
  end.

(** [list_tools(self)] *)
Definition list_tools (self : client) : M unit :=
  print "📋 Available MCP Tools:" ;;
  print (repeat_str 30 "=") ;;
  for_each (fun nt => print ("🔧 " ++ fst nt) ;; print_description (snd nt) ;; print "")
           (available_tools self).

(** [list_prompts(self)] *)
Definition list_prompts (self : client) : M unit :=
  match available_prompts self with
  | [] => print "💡 No prompts available"
  | ps =>
      print "💡 Available MCP Prompts:" ;;
      print (repeat_str 30 "=") ;;
      for_each (fun np => print ("💭 " ++ fst np) ;; print_description (snd np) ;; print "")
               ps
  end.

(** ** The interactive shell *)

(** The branches of the [if/elif] chain of [interactive_mode]. *)
Inductive shell_command : Type :=
| CmdQuit
| CmdAnalyze
| CmdCIStatus
| CmdSlackAlert
| CmdTools
| CmdPrompts
| CmdHelp
| CmdUnknown (c : string).

Definition str_in (s : string) (xs : list string) : bool := existsb (String.eqb s) xs.

(** Branch selection of the loop body, on the stripped, lower-cased line. *)
Definition dispatch (command : string) : shell_command :=
  if str_in command ["quit"; "exit"; "q"; "7"] then CmdQuit
  else if str_in command ["analyze"; "1"] then CmdAnalyze
  else if str_in command ["ci-status"; "2"] then CmdCIStatus
  else if str_in command ["slack-alert"; "3"] then CmdSlackAlert
  else if str_in command ["tools"; "4"] then CmdTools
  else if str_in command ["prompts"; "5"] then CmdPrompts
  else if str_in command ["help"; "6"] then CmdHelp
  else CmdUnknown command.

(** The body of each non-quit branch. *)
Definition run_command (self : client) (c : shell_command) : M unit :=
  match c with
  | CmdQuit => ret tt
  | CmdAnalyze => generate_pr_description self None "main"
  | CmdCIStatus => analyze_ci_status self
  | CmdSlackAlert => send_ci_alert self
  | CmdTools => list_tools self
  | CmdPrompts => list_prompts self
  | CmdHelp => print "Commands: analyze, ci-status, slack-alert, tools, prompts, help, quit"
  | CmdUnknown s => print ("❌ Unknown command: " ++ s)
  end.

(** One iteration of [while True: try: ... except (KeyboardInterrupt,
    EOFError): break]; [false] means [break]. *)
Definition interactive_iteration (self : client) : M bool :=
  try_except
    (line <- input "Enter command (or number): " ;;
     match dispatch (lower (strip line)) with
     | CmdQuit => ret false
     | c => run_command self c ;; print "" ;; ret true
     end)
    is_eof
    (fun _ => ret false).

Fixpoint interactive_loop (self : client) (fuel : nat) : M unit :=
  match fuel with
  | O => ret tt
  | S f =>
      continue <- interactive_iteration self ;;
      if continue then interactive_loop self f else ret tt
  end.

(** [interactive_mode(self)].  Every iteration reads at least one line or
    breaks, so [1 + len(lines)] iterations reach the [break]. *)
Definition interactive_mode (self : client) : M unit :=
  print (nl ++ "🤖 MCP-Gemini Interactive Mode") ;;
  print (repeat_str 50 "=") ;;
  print "Commands:" ;;
  print "  1. analyze     - Analyze PR changes" ;;
  print "  2. ci-status   - Check CI/CD status" ;;
  print "  3. slack-alert - Send Slack notification" ;;
  print "  4. tools       - List available tools" ;;
  print "  5. prompts     - List available prompts" ;;
  print "  6. help        - Show this help" ;;
  print "  7. quit        - Exit" ;;
  print "" ;;
  s <- get_state ;;
  interactive_loop self (S (length (stdin s))) ;;
  print "👋 Goodbye!".

(** ** test_slack.py *)

Fixpoint digits_aux (fuel : nat) (n : Z) (acc : string) : string :=
  match fuel with
  | O => acc
  | S f =>
      let acc' := String (ascii_of_nat (48 + Z.to_nat (n mod 10))) acc in
      if Z.eqb (n / 10) 0 then acc' else digits_aux f (n / 10) acc'
  end.

(** [str(n)] for an integer; [n] has at most [1 + log2 |n|] digits. *)
Definition Z_str (z : Z) : string :=
  let fuel := S (Z.to_nat (Z.log2 (Z.abs z))) in
  if Z.ltb z 0 then "-" ++ digits_aux fuel (- z) "" else digits_aux fuel z "".

(** [requests.post(url, json=payload, timeout=timeout)], giving
    [(response.status_code, response.text)]. *)
Definition requests_post (url : string) (payload : json) (timeout : Z) : M (Z * string) :=
  E <- ask ;;
  emit (HttpPost url payload timeout) ;;
  match http_post E url payload timeout with
  | inl m => raise (RemoteError m)
  | inr resp => ret resp
  end.

Definition test_message : string := "🧪 Test notification from PR Agent".

(** [payload] of [test_slack_notification]. *)
Definition test_payload : json :=
  JObj [("text", JStr test_message); ("mrkdwn", JBool true)].

(** [test_slack_notification()]; [webhook_url] is [os.getenv("SLACK_WEBHOOK_URL")]. *)
Definition test_slack_notification (webhook_url : option string) : M bool :=
  let url_set := match webhook_url with
                 | Some u => negb (String.eqb u "")
                 | None => false
                 end in
  print ("🔗 SLACK_WEBHOOK_URL: " ++ (if url_set then "True" else "False")) ;;
  match webhook_url with
  | Some url =>
      if url_set then
        try_except
          (let payload := test_payload in
           print ("📤 Sending test message: " ++ test_message) ;;
           response <- requests_post url payload 10 ;;
           if Z.eqb (fst response) 200 then
             print "✅ Slack notification sent successfully!" ;;
             ret true
           else
             print ("❌ Slack notification failed: " ++ Z_str (fst response)
                    ++ " - " ++ snd response) ;;
             ret false)
          is_exception
          (fun e => print ("❌ Error sending Slack notification: " ++ exn_str e) ;;
                    ret false)
      else
        print "❌ SLACK_WEBHOOK_URL environment variable not set" ;;
        ret false
  | None =>
      print "❌ SLACK_WEBHOOK_URL environment variable not set" ;;
      ret false
  end.

(** [call_mcp_prompt(self, prompt_name, arguments=None)].  The session's
    [get_prompt] is a parameter: it answers the contents of the returned
    messages, or raises.  [content_str] is [str()] of a content object. *)
Definition call_mcp_prompt (get_prompt : string -> args -> string + list block)
    (content_str : block -> string) (self : client) (prompt_name : string)
    (arguments : option args) : M string :=
  if negb (session self) then raise (RuntimeError "Not connected to MCP server")
  else if negb (mem prompt_name (available_prompts self)) then
    raise (ValueError ("Prompt '" ++ prompt_name ++ "' not available. Available prompts: "
                       ++ py_list_repr (keys (available_prompts self))))
  else
    print ("💭 Getting prompt: " ++ prompt_name) ;;
    match get_prompt prompt_name (match arguments with Some a => a | None => [] end) with
    | inl m => raise (RemoteError m)
    | inr messages =>
        match messages with
        | [] => ret ""
        | content :: _ =>
            (* [content.text if hasattr(content, 'text') else str(content)] *)
            match content with
            | TextContent t => ret t
            | _ => ret (content_str content)
            end
        end
    end.

(** [handle_command(self, command)] *)
Definition handle_command (self : client) (command : string) : M unit :=
  if String.eqb command "analyze" then generate_pr_description self None "main"
  else if String.eqb command "ci-status" then analyze_ci_status self
  else if String.eqb command "slack-alert" then send_ci_alert self
  else if String.eqb command "interactive" then interactive_mode self
  else
    print ("❌ Unknown command: " ++ command) ;;
    print "Available commands: analyze, ci-status, slack-alert, interactive".

(** [d[k] = v] on an insertion-ordered Python dict: an existing key keeps its
    position and takes the new value; a new key goes last. *)
Definition dict_set (k : string) (v : option string) (d : catalog) : catalog :=
  if mem k d then map (fun kv => if String.eqb (fst kv) k then (k, v) else kv) d
  else app d [(k, v)].

(** [{x.name: x for x in xs}] over [(name, description)] pairs. *)
Definition dict_of (xs : list (string * option string)) : catalog :=
  fold_left (fun d kv => dict_set (fst kv) (snd kv) d) xs [].


Definition server_options : list string :=
  ["./server.py"; "./slack-notification/starter/server.py";
   "./github-actions-integration/starter/server.py"].

(** The [for path in server_options: if os.path.exists(path): ... break] loop. *)
Fixpoint find_server (path_exists : string -> bool) (paths : list string) : option string :=
  match paths with
  | [] => None
  | p :: rest => if path_exists p then Some p else find_server path_exists rest
  end.

(** [main()].  [gemini_api_key] is [os.getenv("GEMINI_API_KEY")],
    [path_exists] is [os.path.exists], [init] the outcome of
    [MCPGeminiClient(GEMINI_API_KEY)] ([inl msg]: it raised), and [connect]
    stands for [client.connect_to_mcp_server(path)]. *)
Definition main (gemini_api_key : option string) (path_exists : string -> bool)
    (init : string + unit) (connect : string -> M unit) : M unit :=
  print "🚀 MCP-Gemini PR Agent" ;;
  print (repeat_str 40 "=") ;;
  let key_set := match gemini_api_key with
                 | Some k => negb (String.eqb k "")
                 | None => false
                 end in
  if negb key_set then
    print "❌ Please set GEMINI_API_KEY environment variable" ;;
    print "   You can:" ;;
    print "   1. Set it directly: export GEMINI_API_KEY='your_key_here'" ;;
    print "   2. Add it to a .env file: GEMINI_API_KEY=your_key_here"
  else
    match find_server path_exists server_options with
    | None => print "❌ No MCP server found. Please ensure server.py exists."
    | Some mcp_server_path =>
        print ("📡 Using MCP server: " ++ mcp_server_path) ;;
        match init with
        | inl m =>
            print ("❌ Failed to initialize Gemini client: " ++ m) ;;
            print "   Make sure you have the correct API key and internet connection"
        | inr _ =>
            try_except (connect mcp_server_path) is_exception
              (fun e =>
                 print ("❌ Error connecting to MCP server: " ++ exn_str e) ;;
                 print "   Troubleshooting:" ;;
                 print "   1. Check that the server script exists and is executable" ;;
                 print "   2. Ensure all Python dependencies are installed" ;;
                 print "   3. Verify the server script runs independently")
        end
    end.

(** [print_usage()] *)
Definition print_usage : M unit :=
  print "Usage:" ;;
  print "  python mcp_gemini_client.py                 # Interactive mode" ;;
  print "  python mcp_gemini_client.py analyze         # Analyze PR changes" ;;
  print "  python mcp_gemini_client.py ci-status       # Check CI/CD status" ;;
  print "  python mcp_gemini_client.py slack-alert     # Send Slack alert" ;;
  print "  python mcp_gemini_client.py interactive     # Force interactive mode".

(** The [if __name__ == "__main__"] block; [run_main] is [asyncio.run(main())]. *)
Definition script_entry (argv : list string) (run_main : M unit) : M unit :=
  match argv with
  | _ :: a :: _ => if str_in a ["--help"; "-h"; "help"] then print_usage else run_main
  | _ => run_main
  end.

(** ** demo.py *)

(** [s.count(sub)] for a non-empty [sub]: non-overlapping occurrences,
    scanning left to right. *)
Fixpoint count_sub_aux (fuel : nat) (sub s : string) : nat :=
  match fuel with
  | O => O
  | S f =>
      match s with
      | EmptyString => O
      | String _ rest =>
          if prefix sub s
          then S (count_sub_aux f sub (substring (String.length sub) (String.length s) s))
          else count_sub_aux f sub rest
      end
  end.

Definition count_sub (sub s : string) : nat := count_sub_aux (String.length s) sub s.

Definition dq : string := String (ascii_of_nat 34) EmptyString.

(** [demo_connection(client, server_path)] after the stdio handshake, with
    the same inputs as [connect_to_mcp_server]; [webhook_url] is
    [os.getenv("SLACK_WEBHOOK_URL")]. *)
Definition demo_connection (tools_response : list (string * option string))
    (prompts_response : string + list (string * option string))
    (webhook_url : option string) : M unit :=
  let client := mkClient true (dict_of tools_response)
                  (match prompts_response with inr ps => dict_of ps | inl _ => [] end) in
  print ("✅ Connected! Found " ++ Z_str (Z.of_nat (length (available_tools client)))
         ++ " tools and " ++ Z_str (Z.of_nat (length (available_prompts client)))
         ++ " prompts") ;;
  print (nl ++ "📋 Available Tools:") ;;
  for_each (fun nt => print ("  🔧 " ++ fst nt)) (available_tools client) ;;
  (match available_prompts client with
   | [] => ret tt
   | ps => print (nl ++ "💡 Available Prompts:") ;;
           for_each (fun np => print ("  💭 " ++ fst np)) ps
   end) ;;
  (* Demo 2 *)
  print (nl ++ "🔍 Testing File Analysis...") ;;
  try_except
    (changes <- call_mcp_tool client "analyze_file_changes" (Some [("base_branch", PStr "main")]) ;;
     print "✅ File analysis works!" ;;
     if contains_substring "total_diff_lines" changes then
       summary <- analyze_with_gemini "Summarize these git changes in one sentence:"
                    (slice_to 500 changes) ;;
       print ("🤖 Gemini says: " ++ summary)
     else ret tt)
    is_exception
    (fun e => print ("⚠️  File analysis: " ++ exn_str e)) ;;
  (* Demo 3 *)
  print (nl ++ "📋 Testing Template Suggestion...") ;;
  try_except
    (templates <- call_mcp_tool client "get_pr_templates" None ;;
     print "✅ Template system works!" ;;
     let template_count := count_sub (dq ++ "filename" ++ dq) templates in
     print ("📝 Found " ++ Z_str (Z.of_nat template_count) ++ " PR templates"))
    is_exception
    (fun e => print ("⚠️  Template system: " ++ exn_str e)) ;;
  (* Demo 4 *)
  print (nl ++ "⚙️  Testing CI/CD Integration...") ;;
  try_except
    (events <- call_mcp_tool client "get_recent_actions_events" (Some [("limit", PInt 5)]) ;;
     _workflows <- call_mcp_tool client "get_workflow_status" None ;;
     print "✅ CI/CD integration works!" ;;
     if negb (contains_substring "[]" events) then print "📊 Found GitHub Actions events"
     else print "📊 No GitHub Actions events yet (webhook not configured)")
    is_exception
    (fun e => print ("⚠️  CI/CD integration: " ++ exn_str e)) ;;
  (* Demo 5 *)
  print (nl ++ "📢 Testing Slack Integration...") ;;
  try_except
    (if mem "send_slack_notification" (available_tools client) then
       match webhook_url with
       | Some url =>
           if negb (String.eqb url "") && negb (contains_substring "your_slack" (lower url))
           then
             result <- call_mcp_tool client "send_slack_notification"
                         (Some [("message", PStr "🎬 MCP-Gemini Demo: Testing Slack integration!")]) ;;
             print ("✅ Slack test: " ++ result)
           else print "⚠️  Slack webhook URL not configured"
       | None => print "⚠️  Slack webhook URL not configured"
       end
     else print "⚠️  Slack tool not available in this server")
    is_exception
    (fun e => print ("⚠️  Slack integration: " ++ exn_str e)) ;;
  print (nl ++ repeat_str 50 "=") ;;
  print "🎉 Demo Complete!" ;;
  print (nl ++ "To use the full system:") ;;
  print "1. python mcp_gemini_client.py analyze      # Analyze PR changes" ;;
  print "2. python mcp_gemini_client.py ci-status    # Check CI/CD" ;;
  print "3. python mcp_gemini_client.py interactive  # Interactive mode".

(** ** Sample environments *)

(** A diff tool that answers a fixed text; an AI that echoes a fixed answer. *)
Definition sample_env (diff_text : string) (decoded : option json)
    (ai_answer : string) : env := {|
  tool_backend := fun name _ =>
    if String.eqb name "analyze_file_changes" then inr [TextContent diff_text]
    else inr [TextContent "{}"];
  gemini_backend := fun _ => inr ai_answer;
  json_loads := fun t => if String.eqb t diff_text then decoded else Some (JObj []);
  py_str := fun j => match j with JStr s => s | _ => "" end;
  http_post := fun _ _ _ => inr (200%Z, "ok");
  pyperclip_installed := false;
  file_write := fun _ _ => None; clipboard_copy := fun _ => None
|}.

Definition connected (tools : list string) : client :=
  mkClient true (map (fun t => (t, None)) tools) [].

Definition empty_st : st := mkSt [] [].

Definition count_ai (l : list event) : nat :=
  length (filter (fun ev => match ev with AICall _ => true | _ => false end) l).

Definition count_tool_calls (l : list event) : nat :=
  length (filter (fun ev => match ev with ToolCall _ _ => true | _ => false end) l).

Definition count_posts (l : list event) : nat :=
  length (filter (fun ev => match ev with HttpPost _ _ _ => true | _ => false end) l).

Definition tool_called (name : string) (l : list event) : bool :=
  existsb (fun ev => match ev with ToolCall n _ => String.eqb n name | _ => false end) l.

(** What [analyze_with_gemini(prompt, context)] answers in environment [E]. *)
Definition ai_reply (E : env) (prompt context : string) : string :=
  match gemini_backend E (full_prompt_of prompt context) with
  | inl m => "Error calling Gemini API: " ++ m
  | inr text => text
  end.

(** The lines of the shell's command table: keyword, number, branch. *)
Definition command_table : list (string * string * shell_command) :=
  [("analyze", "1", CmdAnalyze); ("ci-status", "2", CmdCIStatus);
   ("slack-alert", "3", CmdSlackAlert); ("tools", "4", CmdTools);
   ("prompts", "5", CmdPrompts); ("help", "6", CmdHelp); ("quit", "7", CmdQuit)].

(** A computation only appends to the trace. *)
Definition extends {A} (m : M A) : Prop :=
  forall E s, exists l, log (snd (m E s)) = (l ++ log s)%list.

(** A connected client whose catalog holds the PR tools and the Slack tool. *)
Definition c1_client : client :=
  connected ["analyze_file_changes"; "suggest_template"; "send_slack_notification"].

(** The diff tool answers a JSON object carrying an [error] key. *)
Definition c1_env : env :=
  sample_env "{'error': 'bad revision'}" (Some (JObj [("error", JStr "bad revision")]))
    "Summary of the change".



(** [d.get(k)] on a catalog: the first (and, in a dict, only) binding. *)
Definition catalog_lookup (k : string) (c : catalog) : option (option string) :=
  option_map snd (find (fun kv => String.eqb (fst kv) k) c).

(** The value of the last pair with key [k] in a list of pairs. *)
Definition last_value (k : string) (xs : list (string * option string)) : option (option string) :=
  fold_left (fun acc kv => if String.eqb (fst kv) k then Some (snd kv) else acc) xs None.

(** The banner printed by [interactive_mode], most recent line first. *)
Definition shell_banner : list event :=
  [Print ""; Print "  7. quit        - Exit"; Print "  6. help        - Show this help";
   Print "  5. prompts     - List available prompts";
   Print "  4. tools       - List available tools";
   Print "  3. slack-alert - Send Slack notification";
   Print "  2. ci-status   - Check CI/CD status";
   Print "  1. analyze     - Analyze PR changes"; Print "Commands:";
   Print (repeat_str 50 "="); Print (nl ++ "🤖 MCP-Gemini Interactive Mode")].



(** * Proofs *)

(** ** Monad facts *)

Lemma bind_ok {A B} (m : M A) (k : A -> M B) E s a s' :
  m E s = (Ok a, s') -> bind m k E s = k a E s'.
Proof. intros H; unfold bind; now rewrite H. Qed.

Lemma bind_err {A B} (m : M A) (k : A -> M B) E s e s' :
  m E s = (Err e, s') -> bind m k E s = (Err e, s').
Proof. intros H; unfold bind; now rewrite H. Qed.

Lemma extends_ret {A} (a : A) : extends (ret a).
Proof. intros E s; exists []; reflexivity. Qed.

Lemma extends_raise {A} e : extends (@raise A e).
Proof. intros E s; exists []; reflexivity. Qed.

Lemma extends_emit ev : extends (emit ev).
Proof. intros E s; exists [ev]; reflexivity. Qed.

Lemma extends_print msg : extends (print msg).
Proof. apply extends_emit. Qed.

Lemma extends_ask : extends ask.
Proof. intros E s; exists []; reflexivity. Qed.

Lemma extends_get_state : extends get_state.
Proof. intros E s; exists []; reflexivity. Qed.

Lemma extends_input p : extends (input p).
Proof.
  intros E s; unfold input; destruct (stdin s); exists [Print p]; reflexivity.
Qed.

Lemma extends_bind {A B} (m : M A) (k : A -> M B) :
  extends m -> (forall a, extends (k a)) -> extends (bind m k).
Proof.
  intros Hm Hk E s; unfold bind.
  destruct (Hm E s) as [l1 H1].
  destruct (m E s) as [[a|e] s'] eqn:Hr; simpl in *.
  - destruct (Hk a E s') as [l2 H2]; exists (l2 ++ l1)%list.
    rewrite H2, H1; apply app_assoc.
  - exists l1; exact H1.
Qed.

Lemma extends_try {A} (m : M A) hd (h : exn -> M A) :
  extends m -> (forall e, extends (h e)) -> extends (try_except m hd h).
Proof.
  intros Hm Hh E s; unfold try_except.
  destruct (Hm E s) as [l1 H1].
  destruct (m E s) as [[a|e] s'] eqn:Hr; simpl in *.
  - exists l1; exact H1.
  - destruct (hd e).
    + destruct (Hh e E s') as [l2 H2]; exists (l2 ++ l1)%list.
      rewrite H2, H1; apply app_assoc.
    + exists l1; exact H1.
Qed.

Create HintDb trace.
#[local] Hint Resolve extends_ret extends_raise extends_emit extends_print
  extends_ask extends_get_state extends_input : trace.

Ltac solve_extends :=
  repeat (intros; cbv beta zeta;
    lazymatch goal with
    | |- extends (bind _ _) => apply extends_bind
    | |- extends (try_except _ _ _) => apply extends_try
    | |- extends (if ?b then _ else _) => destruct b
    | |- extends (match ?x with _ => _ end) => destruct x
    | |- extends _ => solve [ eauto with trace ]
    end).

Lemma extends_block_text b : extends (block_text b).
Proof. unfold block_text; solve_extends. Qed.
#[local] Hint Resolve extends_block_text : trace.

Lemma extends_call_mcp_tool self name a : extends (call_mcp_tool self name a).
Proof. unfold call_mcp_tool, session_call_tool; solve_extends. Qed.
#[local] Hint Resolve extends_call_mcp_tool : trace.

Lemma extends_analyze_with_gemini p c : extends (analyze_with_gemini p c).
Proof. unfold analyze_with_gemini, generate_content; solve_extends. Qed.
#[local] Hint Resolve extends_analyze_with_gemini : trace.

Lemma extends_json_in k j : extends (json_in k j).
Proof. unfold json_in; solve_extends. Qed.

Lemma extends_json_getitem j k : extends (json_getitem j k).
Proof. unfold json_getitem; solve_extends. Qed.

Lemma extends_json_get j k d : extends (json_get j k d).
Proof. unfold json_get; solve_extends. Qed.

Lemma extends_fmt j : extends (fmt j).
Proof. unfold fmt; solve_extends. Qed.
#[local] Hint Resolve extends_json_in extends_json_getitem extends_json_get
  extends_fmt : trace.

Lemma extends_suggest_pr_template self a c : extends (suggest_pr_template self a c).
Proof. unfold suggest_pr_template; solve_extends. Qed.

Lemma extends_post_generation_options self d c :
  extends (post_generation_options self d c).
Proof. unfold post_generation_options; solve_extends. Qed.
#[local] Hint Resolve extends_suggest_pr_template extends_post_generation_options : trace.

(** Once an event is in the trace, it stays there. *)
Lemma in_trace_bind {A B} (m : M A) (k : A -> M B) E s r s' ev :
  m E s = (r, s') -> In ev (log s') -> (forall a, extends (k a)) ->
  In ev (log (snd (bind m k E s))).
Proof.
  intros Hm Hin Hk; unfold bind; rewrite Hm.
  destruct r as [a|e]; simpl; [|exact Hin].
  destruct (Hk a E s') as [l Hl]; rewrite Hl; apply in_or_app; now right.
Qed.

(** ** Runs of the client methods *)

Lemma analyze_with_gemini_run prompt context E s :
  analyze_with_gemini prompt context E s =
  (Ok (ai_reply E prompt context),
   mkSt (AICall (full_prompt_of prompt context)
         :: Print "🧠 Analyzing with Gemini..." :: log s) (stdin s)).
Proof.
  unfold analyze_with_gemini, ai_reply, try_except, generate_content.
  cbn. destruct (gemini_backend E (full_prompt_of prompt context)); reflexivity.
Qed.

Lemma call_mcp_tool_run self name a E s content :
  session self = true ->
  mem name (available_tools self) = true ->
  tool_backend E name (match a with Some x => x | None => [] end) = inr content ->
  call_mcp_tool self name a E s =
  (match content with [] => ret "" | b :: _ => block_text b end) E
    (mkSt (ToolCall name (match a with Some x => x | None => [] end)
           :: Print ("🔧 Calling tool: " ++ name) :: log s) (stdin s)).
Proof.
  intros Hs Hm Hb; unfold call_mcp_tool, session_call_tool, bind, print, emit, ask.
  rewrite Hs, Hm; cbn. rewrite Hb; reflexivity.
Qed.

(** Whatever the server answers, a catalogued tool call is in the trace. *)
Lemma call_mcp_tool_traced self name a E s :
  session self = true ->
  mem name (available_tools self) = true ->
  In (ToolCall name (match a with Some x => x | None => [] end))
     (log (snd (call_mcp_tool self name a E s))).
Proof.
  intros Hs Hm; unfold call_mcp_tool, session_call_tool, bind, print, emit, ask.
  rewrite Hs, Hm; cbn.
  destruct (tool_backend E name _) as [m|[|b bs]]; cbn; auto.
  destruct b; cbn; auto.
Qed.

Lemma analyze_pr_changes_run self base wd E s d rest :
  session self = true ->
  mem "analyze_file_changes" (available_tools self) = true ->
  tool_backend E "analyze_file_changes" (changes_args base wd) = inr (TextContent d :: rest) ->
  analyze_pr_changes self base wd E s =
  (Ok (mkAnalysis
         (match json_loads E d with
          | Some j => j
          | None => JObj [("error", JStr "Failed to parse changes data"); ("raw", JStr d)]
          end)
         (ai_reply E pr_analysis_prompt d)),
   mkSt (AICall (full_prompt_of pr_analysis_prompt d)
         :: Print "🧠 Analyzing with Gemini..."
         :: ToolCall "analyze_file_changes" (changes_args base wd)
         :: Print ("🔧 Calling tool: " ++ "analyze_file_changes") :: log s) (stdin s)).
Proof.
  intros Hs Hm Hb; unfold analyze_pr_changes.
  erewrite bind_ok;
    [| rewrite (call_mcp_tool_run _ _ (Some (changes_args base wd)) E s _ Hs Hm Hb);
       reflexivity].
  unfold bind, ask, ret; cbn -[analyze_with_gemini full_prompt_of append].
  rewrite analyze_with_gemini_run; reflexivity.
Qed.

Lemma obj_lookup_fold k kvs (acc : option json) v :
  fold_left (fun acc kv => if String.eqb (fst kv) k then Some (snd kv) else acc) kvs acc
  = Some v ->
  acc = Some v \/ existsb (fun kv => String.eqb (fst kv) k) kvs = true.
Proof.
  revert acc; induction kvs as [|[k' x] kvs IH]; intros acc H; simpl in *; auto.
  destruct (IH _ H) as [H'|H']; [|rewrite H'; right; apply orb_true_r].
  destruct (String.eqb k' k); [right; reflexivity | left; exact H'].
Qed.

Lemma obj_lookup_key k kvs (v : json) :
  obj_lookup k kvs = Some v -> existsb (fun kv => String.eqb (fst kv) k) kvs = true.
Proof.
  intros H; destruct (obj_lookup_fold _ _ _ _ H) as [H'|H']; [discriminate | exact H'].
Qed.


(** ** C1: an [error] key in the diff response *)

(** C1 (counterexample): the diff response decodes to [{"error": "bad revision"}],
    yet [generate_pr_description] has already called the AI wrapper once (the
    summarize call inside [analyze_pr_changes]) when it reports the error. *)
Lemma C1_ai_called_before_error_check :
  json_loads c1_env "{'error': 'bad revision'}" = Some (JObj [("error", JStr "bad revision")]) /\
  count_ai (log (snd (generate_pr_description c1_client None "main" c1_env empty_st))) = 1%nat.
Proof. split; vm_compute; reflexivity. Qed.

(** C1 (amended): when the diff-fetch response decodes to a JSON object with
    an [error] key, [generate_pr_description] makes exactly the calls of
    [analyze_pr_changes] (the diff tool call and one AI call, the summarize
    call with the raw diff text as context), then reports the error and
    returns: no classify or fill AI call, no template-tool call. *)
Theorem C1_generate_pr_description_error_stops self wd base E s d rest kvs v :
  session self = true ->
  mem "analyze_file_changes" (available_tools self) = true ->
  tool_backend E "analyze_file_changes" (changes_args base wd) = inr (TextContent d :: rest) ->
  json_loads E d = Some (JObj kvs) ->
  obj_lookup "error" kvs = Some v ->
  generate_pr_description self wd base E s =
  (Ok tt,
   mkSt (Print ("❌ Error analyzing changes: " ++ py_str E v)
         :: AICall (full_prompt_of pr_analysis_prompt d)
         :: Print "🧠 Analyzing with Gemini..."
         :: ToolCall "analyze_file_changes" (changes_args base wd)
         :: Print ("🔧 Calling tool: " ++ "analyze_file_changes")
         :: Print (repeat_str 40 "=")
         :: Print "🔍 Analyzing PR Changes..." :: log s) (stdin s)).
Proof.
  intros Hs Hm Hb Hj Hv.
  unfold generate_pr_description.
  unfold bind at 1 2, print at 1 2, emit at 1 2; cbn -[analyze_pr_changes].
  erewrite bind_ok;
    [| rewrite (analyze_pr_changes_run self base wd E _ d rest Hs Hm Hb); reflexivity].
  cbn beta iota. rewrite Hj. cbn [changes_data].
  erewrite bind_ok; [| reflexivity]. cbn beta.
  rewrite (obj_lookup_key _ _ _ Hv).
  erewrite bind_ok; [| unfold json_getitem; rewrite Hv; reflexivity].
  reflexivity.
Qed.

Lemma C1_generate_pr_description_error_stops_witness :
  generate_pr_description c1_client None "main" c1_env empty_st =
  (Ok tt,
   mkSt [Print ("❌ Error analyzing changes: " ++ "bad revision");
         AICall (full_prompt_of pr_analysis_prompt "{'error': 'bad revision'}");
         Print "🧠 Analyzing with Gemini...";
         ToolCall "analyze_file_changes" (changes_args "main" None);
         Print ("🔧 Calling tool: " ++ "analyze_file_changes");
         Print (repeat_str 40 "=");
         Print "🔍 Analyzing PR Changes..."] []).
Proof.
  apply (C1_generate_pr_description_error_stops c1_client None "main" c1_env empty_st
           "{'error': 'bad revision'}" [] [("error", JStr "bad revision")]
           (JStr "bad revision")); reflexivity.
Defined.

(** ** C2 *)

(** C2: [analyze_with_gemini] never raises: whatever the remote call does, it
    returns a string, which is ["Error calling Gemini API: " ++ str(e)] when
    the remote call raised [e]. *)
Theorem C2_analyze_with_gemini_never_raises prompt context E s :
  fst (analyze_with_gemini prompt context E s) =
  Ok (match gemini_backend E (full_prompt_of prompt context) with
      | inl m => "Error calling Gemini API: " ++ m
      | inr text => text
      end).
Proof. rewrite analyze_with_gemini_run; reflexivity. Qed.

(** ** C3 *)

(** C3: [call_mcp_tool] raises [RuntimeError] without a session (checked
    first), [ValueError] for a tool outside the catalog, and otherwise
    forwards the call (with [arguments or {}]) and returns the text of the
    first content block, or [""] for an empty content list. *)
Theorem C3_call_mcp_tool_contract self name a E s :
  (session self = false ->
   fst (call_mcp_tool self name a E s) = Err (RuntimeError "Not connected to MCP server")) /\
  (session self = true -> mem name (available_tools self) = false ->
   exists msg, fst (call_mcp_tool self name a E s) = Err (ValueError msg)) /\
  (session self = true -> mem name (available_tools self) = true ->
   forall content,
   tool_backend E name (match a with Some x => x | None => [] end) = inr content ->
   In (ToolCall name (match a with Some x => x | None => [] end))
      (log (snd (call_mcp_tool self name a E s))) /\
   (content = [] -> fst (call_mcp_tool self name a E s) = Ok "") /\
   (forall t bs, content = TextContent t :: bs ->
    fst (call_mcp_tool self name a E s) = Ok t)).
Proof.
  split; [|split].
  - intros Hs; unfold call_mcp_tool; rewrite Hs; reflexivity.
  - intros Hs Hm; unfold call_mcp_tool; rewrite Hs, Hm; eexists; reflexivity.
  - intros Hs Hm content Hb.
    rewrite (call_mcp_tool_run self name a E s content Hs Hm Hb).
    split; [|split].
    + destruct content as [|[] ?]; left; reflexivity.
    + intros ->; reflexivity.
    + intros t bs ->; reflexivity.
Qed.

Lemma C3_call_mcp_tool_contract_witness :
  fst (call_mcp_tool c1_client "suggest_template" None c1_env empty_st) = Ok "{}".
Proof.
  destruct (C3_call_mcp_tool_contract c1_client "suggest_template" None c1_env empty_st)
    as [_ [_ H3]].
  destruct (H3 eq_refl eq_refl [TextContent "{}"] eq_refl) as [_ [_ H]].
  exact (H "{}" [] eq_refl).
Defined.

(** ** C4 *)

(** C4: when the tool's text does not decode as JSON, both decode steps
    return (never raise) an object with an [error] field and the raw text
    under [raw]. *)
Theorem C4_decode_failure_wrapped self base wd summary change_type E s s1 d :
  (call_mcp_tool self "analyze_file_changes" (Some (changes_args base wd)) E s = (Ok d, s1) ->
   json_loads E d = None ->
   exists s2, analyze_pr_changes self base wd E s =
     (Ok (mkAnalysis (JObj [("error", JStr "Failed to parse changes data"); ("raw", JStr d)])
                     (ai_reply E pr_analysis_prompt d)), s2)) /\
  (call_mcp_tool self "suggest_template"
     (Some [("changes_summary", PStr summary); ("change_type", PStr change_type)]) E s
   = (Ok d, s1) ->
   json_loads E d = None ->
   exists s2, suggest_pr_template self summary change_type E s =
     (Ok (JObj [("error", JStr "Failed to parse template data"); ("raw", JStr d)]), s2)).
Proof.
  split; intros Hc Hj.
  - unfold analyze_pr_changes; rewrite (bind_ok _ _ _ _ _ _ Hc).
    unfold bind at 1, ask at 1; rewrite Hj.
    unfold bind at 1; rewrite analyze_with_gemini_run.
    eexists; reflexivity.
  - unfold suggest_pr_template; rewrite (bind_ok _ _ _ _ _ _ Hc).
    unfold bind at 1, ask at 1; rewrite Hj.
    eexists; reflexivity.
Qed.

(** The diff tool answers text that does not decode. *)
Lemma C4_decode_failure_wrapped_witness :
  exists s2, analyze_pr_changes c1_client "main" None
               (sample_env "not json" None "AI summary") empty_st =
    (Ok (mkAnalysis (JObj [("error", JStr "Failed to parse changes data");
                           ("raw", JStr "not json")]) "AI summary"), s2).
Proof.
  apply (proj1 (C4_decode_failure_wrapped c1_client "main" None "" ""
                  (sample_env "not json" None "AI summary") empty_st
                  (mkSt [ToolCall "analyze_file_changes" (changes_args "main" None);
                         Print ("🔧 Calling tool: " ++ "analyze_file_changes")] [])
                  "not json")); reflexivity.
Defined.

(** ** C5 *)

(** C5: without the notification tool in the catalog, [send_ci_alert]
    prints the unavailability message and returns; its only effects are its
    three prints: no tool invocation, no AI call. *)
Theorem C5_send_ci_alert_guard self E s :
  mem "send_slack_notification" (available_tools self) = false ->
  send_ci_alert self E s =
  (Ok tt, mkSt (Print "❌ Slack notification tool not available"
                :: Print (repeat_str 25 "=") :: Print "📢 Sending CI Alert..." :: log s)
               (stdin s)) /\
  count_tool_calls (log (snd (send_ci_alert self E s))) = count_tool_calls (log s) /\
  count_ai (log (snd (send_ci_alert self E s))) = count_ai (log s).
Proof.
  intros Hm.
  assert (H : send_ci_alert self E s =
    (Ok tt, mkSt (Print "❌ Slack notification tool not available"
                  :: Print (repeat_str 25 "=") :: Print "📢 Sending CI Alert..." :: log s)
                 (stdin s))).
  { unfold send_ci_alert; rewrite Hm; reflexivity. }
  rewrite H; repeat split.
Qed.

Lemma C5_send_ci_alert_guard_witness :
  count_tool_calls (log (snd (send_ci_alert (connected ["get_workflow_status"])
                                 c1_env empty_st))) = 0%nat.
Proof.
  destruct (C5_send_ci_alert_guard (connected ["get_workflow_status"]) c1_env empty_st
              eq_refl) as [_ [H _]].
  exact H.
Defined.

(** ** C8 *)

(** C8: with an empty context the AI receives the instruction alone; with a
    non-empty context it receives context, a blank line, then the
    instruction. *)
Theorem C8_analyze_with_gemini_prompt prompt c rest E s :
  log (snd (analyze_with_gemini prompt "" E s)) =
    AICall prompt :: Print "🧠 Analyzing with Gemini..." :: log s /\
  log (snd (analyze_with_gemini prompt (String c rest) E s)) =
    AICall (String c rest ++ nl ++ nl ++ prompt)
    :: Print "🧠 Analyzing with Gemini..." :: log s.
Proof.
  rewrite !analyze_with_gemini_run; split; reflexivity.
Qed.

(** ** C6 *)

(** C6 (counterexample): with [SLACK_WEBHOOK_URL] unset the probe sends no
    POST at all; it returns [False] right away. *)
Lemma C6_no_post_without_webhook_url :
  fst (test_slack_notification None c1_env empty_st) = Ok false /\
  count_posts (log (snd (test_slack_notification None c1_env empty_st))) = 0%nat.
Proof. split; reflexivity. Qed.

(** C6 (amended): with [SLACK_WEBHOOK_URL] set to a non-empty URL the probe
    makes exactly one POST, of [{"text": test_message, "mrkdwn": true}] with
    timeout 10, and returns [True] iff the status is 200 ([False] for any
    other status and for a transport error, never an exception); with the
    variable unset or empty it makes no POST and returns [False]. *)
Theorem C6_test_slack_notification_contract E s :
  (forall url, url <> "" ->
   exists msg, test_slack_notification (Some url) E s =
     (Ok (match http_post E url test_payload 10 with
          | inr (status, _) => Z.eqb status 200
          | inl _ => false
          end),
      mkSt (Print msg :: HttpPost url test_payload 10
            :: Print ("📤 Sending test message: " ++ test_message)
            :: Print ("🔗 SLACK_WEBHOOK_URL: " ++ "True") :: log s) (stdin s))) /\
  (forall w, w = None \/ w = Some "" ->
   test_slack_notification w E s =
     (Ok false, mkSt (Print "❌ SLACK_WEBHOOK_URL environment variable not set"
                      :: Print ("🔗 SLACK_WEBHOOK_URL: " ++ "False") :: log s) (stdin s))).
Proof.
  split.
  - intros url Hu.
    apply String.eqb_neq in Hu.
    unfold test_slack_notification, try_except, requests_post.
    unfold bind, print, emit, ask, ret, raise; rewrite Hu; cbn.
    destruct (http_post E url test_payload 10) as [m|[status text]]; cbn.
    + eexists; reflexivity.
    + destruct (Z.eqb status 200); eexists; reflexivity.
  - intros w [-> | ->]; reflexivity.
Qed.

Lemma C6_test_slack_notification_contract_witness :
  exists msg, test_slack_notification (Some "https://hooks.example/T0") c1_env empty_st =
    (Ok true, mkSt [Print msg; HttpPost "https://hooks.example/T0" test_payload 10;
                    Print ("📤 Sending test message: " ++ test_message);
                    Print ("🔗 SLACK_WEBHOOK_URL: " ++ "True")] []).
Proof.
  apply (proj1 (C6_test_slack_notification_contract c1_env empty_st)); discriminate.
Defined.

(** ** C7 *)

Lemma interactive_loop_same_branch self f E l rest line line' :
  dispatch (lower (strip line)) = dispatch (lower (strip line')) ->
  interactive_loop self (S f) E (mkSt l (line :: rest)) =
  interactive_loop self (S f) E (mkSt l (line' :: rest)).
Proof.
  intros H; cbn [interactive_loop].
  unfold interactive_iteration, try_except, bind at 1 2, input; cbn [stdin log].
  rewrite H; reflexivity.
Qed.

Lemma interactive_mode_same_branch self E l rest line line' :
  dispatch (lower (strip line)) = dispatch (lower (strip line')) ->
  interactive_mode self E (mkSt l (line :: rest)) =
  interactive_mode self E (mkSt l (line' :: rest)).
Proof.
  intros H; unfold interactive_mode.
  unfold bind at 1 2 3 4 5 6 7 8 9 10 11 12 13, print, emit, get_state.
  cbn [stdin log length].
  rewrite (interactive_loop_same_branch self _ E _ rest line line' H).
  reflexivity.
Qed.

(** C7: for each line of the command table, the keyword and the number
    select the same branch of the shell, and the whole shell session behaves
    the same whether the operator types one or the other. *)
Theorem C7_aliases_same_branch :
  Forall (fun '(kw, num, c) =>
            dispatch (lower (strip kw)) = c /\ dispatch (lower (strip num)) = c /\
            forall self E l rest,
              interactive_mode self E (mkSt l (kw :: rest)) =
              interactive_mode self E (mkSt l (num :: rest)))
         command_table.
Proof.
  repeat constructor; intros;
    apply interactive_mode_same_branch; reflexivity.
Qed.

(** ** C9 *)

Lemma in_trace_bind' {A B} (m : M A) (k : A -> M B) E s ev :
  In ev (log (snd (m E s))) -> (forall a, extends (k a)) ->
  In ev (log (snd (bind m k E s))).
Proof.
  intros Hin Hk; destruct (m E s) as [r s'] eqn:Hm.
  exact (in_trace_bind m k E s r s' ev Hm Hin Hk).
Qed.

Lemma in_trace_try {A} (m : M A) hd (h : exn -> M A) E s ev :
  In ev (log (snd (m E s))) -> (forall e, extends (h e)) ->
  In ev (log (snd (try_except m hd h E s))).
Proof.
  intros Hin Hh; unfold try_except.
  destruct (m E s) as [[a|e] s']; cbn in *; [exact Hin|].
  destruct (hd e); [|exact Hin].
  destruct (Hh e E s') as [l Hl]; rewrite Hl; apply in_or_app; now right.
Qed.

Ltac step := erewrite bind_ok; [| reflexivity]; cbn beta.



(** ** C10 *)

Lemma prefix_cons c s t : prefix s t = true -> prefix (String c s) (String c t) = true.
Proof. intros H; cbn; destruct (ascii_dec c c) as [_|n']; [exact H | now elim n']. Qed.

Lemma slice_to_short n s : py_len s <= n -> slice_to n s = s.
Proof.
  revert n; induction s as [|c s IH]; intros n H; cbn in *; [reflexivity|].
  destruct (is_cont c); cbn in H.
  - f_equal; apply IH; lia.
  - destruct n as [|n]; [lia|]; f_equal; apply IH; lia.
Qed.

Lemma slice_to_long n s :
  n <= py_len s ->
  py_len (slice_to n s) = n /\ prefix (slice_to n s) s = true.
Proof.
  revert n; induction s as [|c s IH]; intros n H; cbn in *.
  - assert (n = 0) as -> by lia; split; reflexivity.
  - destruct (is_cont c) eqn:Hc; cbn in H.
    + destruct (IH n H) as [H1 H2]; cbn; rewrite Hc; split; [exact H1 | now apply prefix_cons].
    + destruct n as [|n]; [split; reflexivity|].
      destruct (IH n ltac:(lia)) as [H1 H2]; cbn; rewrite Hc; split; [lia | now apply prefix_cons].
Qed.

(** The cut falls between two code points: what is left starts with a lead
    byte, or is empty. *)
Lemma slice_to_boundary n s :
  exists r, s = slice_to n s ++ r /\
            (r = "" \/ exists c r', r = String c r' /\ is_cont c = false).
Proof.
  revert n; induction s as [|c s IH]; intros n; cbn.
  - exists ""; split; [reflexivity | left; reflexivity].
  - destruct (is_cont c) eqn:Hc.
    + destruct (IH n) as [r [Hr Hb]]; exists r; split; [cbn; f_equal; exact Hr | exact Hb].
    + destruct n as [|n].
      * exists (String c s); split; [reflexivity | right; exists c, s; split; [reflexivity | exact Hc]].
      * destruct (IH n) as [r [Hr Hb]]; exists r; split; [cbn; f_equal; exact Hr | exact Hb].
Qed.

(** [s[:n]] counts code points, not bytes: ["é"] is two bytes. *)
Example slice_to_code_points :
  py_len "éa" = 2 /\ slice_to 1 "éa" = "é" /\ slice_to 1 "aé" = "a".
Proof. vm_compute; split; [reflexivity | split; reflexivity]. Qed.

Lemma post_generation_options_slack_traced self desc change_type E l line rest :
  session self = true ->
  mem "send_slack_notification" (available_tools self) = true ->
  strip line = "2" ->
  In (ToolCall "send_slack_notification"
        [("message", PStr (pr_slack_message change_type desc))])
     (log (snd (post_generation_options self desc change_type E (mkSt l (line :: rest))))).
Proof.
  intros Hs Hm Hl; unfold post_generation_options.
  do 6 step.
  apply in_trace_try; [| solve_extends].
  erewrite bind_ok; [| reflexivity]; cbn beta zeta.
  rewrite Hl; cbn [String.eqb Ascii.eqb Bool.eqb andb].
  rewrite Hm.
  apply in_trace_bind'; [| solve_extends].
  apply (call_mcp_tool_traced _ _ (Some _) _ _ Hs Hm).
Qed.

(** C10 (counterexample): a description of fewer than 500 characters is
    forwarded to the notification tool in full. *)
Lemma C10_short_description_forwarded_whole :
  py_len "Fixes a null check" < 500 /\
  In (ToolCall "send_slack_notification"
        [("message", PStr (pr_slack_message "bug" "Fixes a null check"))])
     (log (snd (post_generation_options c1_client "Fixes a null check" "bug" c1_env
                  (mkSt [] ["2"])))) /\
  pr_slack_message "bug" "Fixes a null check" =
    "📝 New PR Ready for Review (bug)" ++ nl ++ nl ++ "Fixes a null check" ++ "...".
Proof. vm_compute; split; [lia | split; [right; left; reflexivity | reflexivity]]. Qed.

(** C10 (amended): when the operator enters 2 and the notification tool is in
    the catalog, the tool receives ["📝 New PR Ready for Review (<type>)"], a
    blank line, [description[:500]] and ["..."]: the first 500 characters
    (code points) of a longer description, cut between two code points, the
    whole of a description of at most 500 characters. *)
Theorem C10_slack_message_truncated self desc change_type E l line rest :
  session self = true ->
  mem "send_slack_notification" (available_tools self) = true ->
  strip line = "2" ->
  In (ToolCall "send_slack_notification"
        [("message", PStr (pr_slack_message change_type desc))])
     (log (snd (post_generation_options self desc change_type E (mkSt l (line :: rest))))) /\
  pr_slack_message change_type desc =
    "📝 New PR Ready for Review (" ++ change_type ++ ")" ++ nl ++ nl
    ++ slice_to 500 desc ++ "..." /\
  (py_len desc <= 500 -> slice_to 500 desc = desc) /\
  (500 <= py_len desc ->
   py_len (slice_to 500 desc) = 500 /\ prefix (slice_to 500 desc) desc = true) /\
  (exists r, desc = slice_to 500 desc ++ r /\
             (r = "" \/ exists c r', r = String c r' /\ is_cont c = false)).
Proof.
  intros Hs Hm Hl; split; [|split; [|split; [|split]]].
  - exact (post_generation_options_slack_traced _ _ _ _ _ _ _ Hs Hm Hl).
  - reflexivity.
  - apply slice_to_short.
  - apply slice_to_long.
  - apply slice_to_boundary.
Qed.

Lemma C10_slack_message_truncated_witness :
  In (ToolCall "send_slack_notification"
        [("message", PStr (pr_slack_message "bug" "Fixes a null check"))])
     (log (snd (post_generation_options c1_client "Fixes a null check" "bug" c1_env
                  (mkSt [] [" 2 "])))).
Proof.
  apply (C10_slack_message_truncated c1_client "Fixes a null check" "bug" c1_env [] " 2 " []);
    reflexivity.
Defined.

(** * Further properties of the client *)

(** ** Tool and prompt catalogs *)

Lemma keys_dict_set k v d :
  keys (dict_set k v d) = if mem k d then keys d else app (keys d) [k].
Proof.
  unfold dict_set; destruct (mem k d); [|unfold keys; rewrite map_app; reflexivity].
  unfold keys; rewrite map_map; apply map_ext; intros [k' x]; cbn.
  destruct (String.eqb k' k) eqn:E; [apply String.eqb_eq in E; now subst|reflexivity].
Qed.

Lemma mem_keys k d : mem k d = true <-> In k (keys d).
Proof.
  unfold mem; rewrite existsb_exists; split.
  - intros [x [Hx He]]; apply String.eqb_eq in He; now subst.
  - intros H; exists k; split; [exact H | apply String.eqb_refl].
Qed.

Lemma mem_dict_set k' k v d : mem k' (dict_set k v d) = String.eqb k' k || mem k' d.
Proof.
  unfold mem at 1; rewrite keys_dict_set.
  destruct (mem k d) eqn:Hk.
  - destruct (String.eqb k' k) eqn:E; [|reflexivity].
    apply String.eqb_eq in E; subst; exact Hk.
  - rewrite existsb_app; cbn; rewrite orb_false_r, orb_comm; reflexivity.
Qed.

Lemma nodup_dict_set k v d : NoDup (keys d) -> NoDup (keys (dict_set k v d)).
Proof.
  intros H; rewrite keys_dict_set; destruct (mem k d) eqn:Hk; [exact H|].
  apply NoDup_app; [exact H | constructor; [intros []|constructor] |].
  intros x Hx [<-|[]]. apply mem_keys in Hx; congruence.
Qed.

Lemma find_app' {A} (f : A -> bool) l1 l2 :
  find f (l1 ++ l2) = match find f l1 with Some x => Some x | None => find f l2 end.
Proof.
  induction l1 as [|a l1 IH]; cbn; [reflexivity|]; destruct (f a); [reflexivity | exact IH].
Qed.

Lemma lookup_dict_set k' k v d :
  catalog_lookup k' (dict_set k v d) =
  if String.eqb k k' then Some v else catalog_lookup k' d.
Proof.
  unfold dict_set, catalog_lookup; destruct (mem k d) eqn:Hk.
  - destruct (String.eqb k k') eqn:Ekk.
    + apply String.eqb_eq in Ekk; subst k'.
      induction d as [|[k0 x] d IH]; cbn in *; [discriminate|].
      destruct (String.eqb k0 k) eqn:E0; cbn; [rewrite String.eqb_refl; reflexivity|].
      rewrite E0; apply IH; unfold mem in Hk |- *; cbn in Hk.
      rewrite String.eqb_sym, E0 in Hk; exact Hk.
    + clear Hk; induction d as [|[k0 x] d IH]; cbn; [reflexivity|].
      destruct (String.eqb k0 k) eqn:E0; cbn.
      * apply String.eqb_eq in E0; subst k0; rewrite Ekk; exact IH.
      * destruct (String.eqb k0 k'); [reflexivity | exact IH].
  - rewrite find_app'; cbn.
    destruct (find (fun kv => String.eqb (fst kv) k') d) as [[k1 x1]|] eqn:Hf; cbn.
    + destruct (String.eqb k k') eqn:E; [|reflexivity].
      apply String.eqb_eq in E; subst k'.
      apply find_some in Hf as [Hin He]; cbn in He; apply String.eqb_eq in He; subst k1.
      assert (In k (keys d)) by (apply in_map_iff; exists (k, x1); auto).
      apply mem_keys in H; congruence.
    + destruct (String.eqb k k'); reflexivity.
Qed.

Lemma dict_of_fold xs d :
  NoDup (keys d) ->
  NoDup (keys (fold_left (fun d kv => dict_set (fst kv) (snd kv) d) xs d)) /\
  (forall k, mem k (fold_left (fun d kv => dict_set (fst kv) (snd kv) d) xs d) =
             existsb (fun kv => String.eqb (fst kv) k) xs || mem k d) /\
  (forall k, catalog_lookup k (fold_left (fun d kv => dict_set (fst kv) (snd kv) d) xs d) =
             fold_left (fun acc kv => if String.eqb (fst kv) k then Some (snd kv) else acc)
                       xs (catalog_lookup k d)).
Proof.
  revert d; induction xs as [|[k0 x] xs IH]; intros d Hd; cbn [fold_left existsb fst snd].
  - split; [exact Hd | split; intros; reflexivity].
  - destruct (IH (dict_set k0 x d) (nodup_dict_set _ _ _ Hd)) as [H1 [H2 H3]].
    split; [exact H1| split].
    + intros k; rewrite H2, mem_dict_set, String.eqb_sym.
      destruct (String.eqb k0 k), (existsb _ xs); reflexivity.
    + intros k; rewrite H3, lookup_dict_set; reflexivity.
Qed.

(** X1: the catalogs built by [{t.name: t for t in ...}] have no duplicate
    name, contain exactly the advertised names, and a duplicated name keeps
    the descriptor listed last. *)
Theorem X1_dict_of_catalog xs :
  NoDup (keys (dict_of xs)) /\
  (forall k, mem k (dict_of xs) = existsb (fun kv => String.eqb (fst kv) k) xs) /\
  (forall k, catalog_lookup k (dict_of xs) = last_value k xs).
Proof.
  destruct (dict_of_fold xs [] (NoDup_nil _)) as [H1 [H2 H3]].
  split; [exact H1| split].
  - intros k; unfold dict_of; rewrite (H2 k); apply orb_false_r.
  - intros k; exact (H3 k).
Qed.

(** ** Command-line commands *)

(** X2: from the command line, [analyze], [ci-status] and [slack-alert] run
    the same workflow as the same keyword typed in the interactive shell. *)
Theorem X2_handle_command_matches_shell self :
  Forall (fun c => forall E s, handle_command self c E s = run_command self (dispatch c) E s)
         ["analyze"; "ci-status"; "slack-alert"].
Proof. repeat constructor. Qed.

(** X3: any other command-line word than [analyze], [ci-status],
    [slack-alert] and [interactive] (the shell's numeric aliases included)
    only prints the two "unknown command" lines: no tool call, no AI call. *)
Theorem X3_handle_command_unknown self command E s :
  str_in command ["analyze"; "ci-status"; "slack-alert"; "interactive"] = false ->
  handle_command self command E s =
  (Ok tt, mkSt (Print "Available commands: analyze, ci-status, slack-alert, interactive"
                :: Print ("❌ Unknown command: " ++ command) :: log s) (stdin s)).
Proof.
  intros H; unfold str_in in H; cbn in H.
  apply orb_false_elim in H as [H1 H]; apply orb_false_elim in H as [H2 H];
  apply orb_false_elim in H as [H3 H]; apply orb_false_elim in H as [H4 _].
  unfold handle_command; rewrite H1, H2, H3, H4; reflexivity.
Qed.

Lemma X3_handle_command_unknown_witness :
  handle_command c1_client "1" c1_env empty_st =
  (Ok tt, mkSt [Print "Available commands: analyze, ci-status, slack-alert, interactive";
                Print ("❌ Unknown command: " ++ "1")] []).
Proof. apply X3_handle_command_unknown; reflexivity. Defined.

(** ** call_mcp_prompt and the guards of call_mcp_tool *)

(** X4: [call_mcp_prompt] raises [RuntimeError] without a session and
    [ValueError] for a name outside the prompt catalog; otherwise, when the
    server answers, it never fails: it returns [""] for no message, the text
    of a text first message, and [str()] of any other first content. *)
Theorem X4_call_mcp_prompt_contract get_prompt content_str self name a E s :
  (session self = false ->
   fst (call_mcp_prompt get_prompt content_str self name a E s)
   = Err (RuntimeError "Not connected to MCP server")) /\
  (session self = true -> mem name (available_prompts self) = false ->
   exists msg, fst (call_mcp_prompt get_prompt content_str self name a E s)
               = Err (ValueError msg)) /\
  (session self = true -> mem name (available_prompts self) = true ->
   forall messages,
   get_prompt name (match a with Some x => x | None => [] end) = inr messages ->
   fst (call_mcp_prompt get_prompt content_str self name a E s) =
   Ok (match messages with
       | [] => ""
       | TextContent t :: _ => t
       | c :: _ => content_str c
       end)).
Proof.
  unfold call_mcp_prompt; split; [|split].
  - intros Hs; rewrite Hs; reflexivity.
  - intros Hs Hm; rewrite Hs, Hm; eexists; reflexivity.
  - intros Hs Hm messages Hg; rewrite Hs, Hm; cbn; rewrite Hg.
    destruct messages as [|[] ?]; reflexivity.
Qed.

Lemma X4_call_mcp_prompt_contract_witness :
  fst (call_mcp_prompt (fun _ _ => inr [ImageContent "iVBOR"])
         (fun _ => "<image>") (mkClient true [] [("pr_review", None)])
         "pr_review" None c1_env empty_st) = Ok "<image>".
Proof.
  destruct (X4_call_mcp_prompt_contract (fun _ _ => inr [ImageContent "iVBOR"])
              (fun _ => "<image>") (mkClient true [] [("pr_review", None)])
              "pr_review" None c1_env empty_st) as [_ [_ H]].
  exact (H eq_refl eq_refl [ImageContent "iVBOR"] eq_refl).
Defined.

(** X5: [call_mcp_tool] never contacts the server (nor prints) when there is
    no session or the tool is not in the catalog: the trace is unchanged. *)
Theorem X5_call_mcp_tool_no_contact self name a E s :
  session self = false \/ mem name (available_tools self) = false ->
  snd (call_mcp_tool self name a E s) = s.
Proof.
  intros [H|H]; unfold call_mcp_tool; [rewrite H; reflexivity|].
  destruct (session self); [rewrite H|]; reflexivity.
Qed.

Lemma X5_call_mcp_tool_no_contact_witness :
  snd (call_mcp_tool c1_client "get_workflow_status" None c1_env empty_st) = empty_st.
Proof. apply X5_call_mcp_tool_no_contact; right; reflexivity. Defined.

(** ** The CI/CD workflows *)

Lemma bind_print p {B} (k : M B) E s :
  (print p ;; k) E s = k E (mkSt (Print p :: log s) (stdin s)).
Proof. reflexivity. Qed.

Lemma try_print_ok (m : M unit) (h : exn -> string) E s :
  fst (try_except m is_exception (fun e => print (h e)) E s) = Ok tt.
Proof. unfold try_except; destruct (m E s) as [[[]|e] s']; reflexivity. Qed.

(** X6: [analyze_ci_status] and [send_ci_alert] never raise: whatever the
    session, the catalog, the servers and the AI do, they return normally. *)
Theorem X6_ci_workflows_never_raise self E s :
  fst (analyze_ci_status self E s) = Ok tt /\ fst (send_ci_alert self E s) = Ok tt.
Proof.
  split; [unfold analyze_ci_status | unfold send_ci_alert];
    rewrite !bind_print; apply try_print_ok.
Qed.

(** X7: when both tools answer with text, [analyze_ci_status] asks for the 10
    latest events, then the workflow status, sends the AI the analysis prompt
    built from the two texts (with no context), and prints its answer. *)
Theorem X7_analyze_ci_status_run self E s ev r1 wf r2 :
  session self = true ->
  mem "get_recent_actions_events" (available_tools self) = true ->
  mem "get_workflow_status" (available_tools self) = true ->
  tool_backend E "get_recent_actions_events" [("limit", PInt 10)] = inr (TextContent ev :: r1) ->
  tool_backend E "get_workflow_status" [] = inr (TextContent wf :: r2) ->
  analyze_ci_status self E s =
  (Ok tt,
   mkSt (Print (ai_reply E (ci_analysis_prompt ev wf) "")
         :: Print (repeat_str 30 "=") :: Print "📊 CI/CD Analysis:"
         :: AICall (ci_analysis_prompt ev wf) :: Print "🧠 Analyzing with Gemini..."
         :: ToolCall "get_workflow_status" []
         :: Print ("🔧 Calling tool: " ++ "get_workflow_status")
         :: ToolCall "get_recent_actions_events" [("limit", PInt 10)]
         :: Print ("🔧 Calling tool: " ++ "get_recent_actions_events")
         :: Print (repeat_str 40 "=") :: Print "🔍 Analyzing CI/CD Status..." :: log s)
        (stdin s)).
Proof.
  intros Hs He Hw Hbe Hbw.
  unfold analyze_ci_status; rewrite !bind_print; unfold try_except.
  erewrite bind_ok;
    [| rewrite (call_mcp_tool_run _ _ (Some [("limit", PInt 10)]) E _ _ Hs He Hbe);
       reflexivity].
  erewrite bind_ok;
    [| rewrite (call_mcp_tool_run _ _ None E _ _ Hs Hw Hbw); reflexivity].
  erewrite bind_ok; [| rewrite analyze_with_gemini_run; reflexivity].
  reflexivity.
Qed.

Lemma X7_analyze_ci_status_run_witness :
  analyze_ci_status (connected ["get_recent_actions_events"; "get_workflow_status"])
    {| tool_backend := fun n _ => if String.eqb n "get_workflow_status"
                                  then inr [TextContent "[]"] else inr [TextContent "[{}]"];
       gemini_backend := fun _ => inr "All green";
       json_loads := fun _ => None; py_str := fun _ => "";
       http_post := fun _ _ _ => inl "offline"; pyperclip_installed := false;
  file_write := fun _ _ => None; clipboard_copy := fun _ => None |}
    empty_st =
  (Ok tt,
   mkSt [Print "All green"; Print (repeat_str 30 "="); Print "📊 CI/CD Analysis:";
         AICall (ci_analysis_prompt "[{}]" "[]"); Print "🧠 Analyzing with Gemini...";
         ToolCall "get_workflow_status" [];
         Print ("🔧 Calling tool: " ++ "get_workflow_status");
         ToolCall "get_recent_actions_events" [("limit", PInt 10)];
         Print ("🔧 Calling tool: " ++ "get_recent_actions_events");
         Print (repeat_str 40 "="); Print "🔍 Analyzing CI/CD Status..."] []).
Proof.
  exact (X7_analyze_ci_status_run
           (connected ["get_recent_actions_events"; "get_workflow_status"])
           {| tool_backend := fun n _ => if String.eqb n "get_workflow_status"
                                         then inr [TextContent "[]"] else inr [TextContent "[{}]"];
              gemini_backend := fun _ => inr "All green";
              json_loads := fun _ => None; py_str := fun _ => "";
              http_post := fun _ _ _ => inl "offline"; pyperclip_installed := false;
  file_write := fun _ _ => None; clipboard_copy := fun _ => None |}
           empty_st "[{}]" [] "[]" []
           eq_refl eq_refl eq_refl eq_refl eq_refl).
Defined.

(** X8: when the notification tool is catalogued and the workflow tool
    answers with text, [send_ci_alert] sends the notification tool exactly
    what the AI answered for the alert prompt; if the AI call failed, that is
    the ["Error calling Gemini API: ..."] text. *)
Theorem X8_send_ci_alert_forwards_ai_reply self E s wf r :
  session self = true ->
  mem "get_workflow_status" (available_tools self) = true ->
  mem "send_slack_notification" (available_tools self) = true ->
  tool_backend E "get_workflow_status" [] = inr (TextContent wf :: r) ->
  In (ToolCall "send_slack_notification"
        [("message", PStr (ai_reply E (alert_prompt wf) ""))])
     (log (snd (send_ci_alert self E s))).
Proof.
  intros Hs Hw Hm Hb.
  unfold send_ci_alert; rewrite !bind_print.
  apply in_trace_try; [| solve_extends].
  rewrite Hm; cbn [negb].
  erewrite bind_ok;
    [| rewrite (call_mcp_tool_run _ _ None E _ _ Hs Hw Hb); reflexivity].
  erewrite bind_ok; [| rewrite analyze_with_gemini_run; reflexivity].
  apply in_trace_bind'; [| solve_extends].
  exact (call_mcp_tool_traced _ _ (Some _) _ _ Hs Hm).
Qed.

Lemma X8_send_ci_alert_forwards_ai_reply_witness :
  In (ToolCall "send_slack_notification"
        [("message", PStr ("Error calling Gemini API: " ++ "quota exceeded"))])
     (log (snd (send_ci_alert (connected ["get_workflow_status"; "send_slack_notification"])
                 {| tool_backend := fun _ _ => inr [TextContent "{}"];
                    gemini_backend := fun _ => inl "quota exceeded";
                    json_loads := fun _ => None; py_str := fun _ => "";
                    http_post := fun _ _ _ => inl "offline"; pyperclip_installed := false;
  file_write := fun _ _ => None; clipboard_copy := fun _ => None |}
                 empty_st))).
Proof.
  exact (X8_send_ci_alert_forwards_ai_reply
           (connected ["get_workflow_status"; "send_slack_notification"])
           {| tool_backend := fun _ _ => inr [TextContent "{}"];
              gemini_backend := fun _ => inl "quota exceeded";
              json_loads := fun _ => None; py_str := fun _ => "";
              http_post := fun _ _ _ => inl "offline"; pyperclip_installed := false;
  file_write := fun _ _ => None; clipboard_copy := fun _ => None |}
           empty_st "{}" [] eq_refl eq_refl eq_refl eq_refl).
Defined.

(** ** The template step of generate_pr_description *)

Lemma suggest_pr_template_run self a c E s t r :
  session self = true ->
  mem "suggest_template" (available_tools self) = true ->
  tool_backend E "suggest_template" [("changes_summary", PStr a); ("change_type", PStr c)]
    = inr (TextContent t :: r) ->
  suggest_pr_template self a c E s =
  (let s1 := mkSt (ToolCall "suggest_template"
                     [("changes_summary", PStr a); ("change_type", PStr c)]
                   :: Print ("🔧 Calling tool: " ++ "suggest_template") :: log s) (stdin s) in
   match json_loads E t with
   | Some j => (Ok j, s1)
   | None => (Ok (JObj [("error", JStr "Failed to parse template data"); ("raw", JStr t)]),
              mkSt (Print ("❌ Raw template response: " ++ t) :: log s1) (stdin s1))
   end).
Proof.
  intros Hs Hm Hb; unfold suggest_pr_template.
  erewrite bind_ok;
    [| rewrite (call_mcp_tool_run self "suggest_template"
                  (Some [("changes_summary", PStr a); ("change_type", PStr c)]) E s _ Hs Hm Hb);
       reflexivity].
  unfold bind, ask; cbn beta iota zeta.
  destruct (json_loads E t); reflexivity.
Qed.

(** The PR workflow up to the template suggestion, in an environment where
    the diff decodes to an object without [error] and the template tool
    answers text [t]. *)
Ltac run_to_template Hs Ha Ht Hb Hj Hk Hbt Htj :=
  unfold generate_pr_description;
  step; step;
  erewrite bind_ok;
    [| rewrite (analyze_pr_changes_run _ _ _ _ _ _ _ Hs Ha Hb); reflexivity];
  cbn beta iota; rewrite Hj; cbn [changes_data ai_analysis log stdin];
  step; rewrite Hk;
  step; step; step; step; step;
  erewrite bind_ok; [| rewrite analyze_with_gemini_run; reflexivity]; cbn beta zeta;
  cbn [log stdin];
  step; step;
  erewrite bind_ok;
    [| rewrite (suggest_pr_template_run _ _ _ _ _ _ _ Hs Ht Hbt); cbv zeta; rewrite Htj;
       reflexivity]; cbn beta; cbn [log stdin].

(** X9: when the template tool's answer decodes to an object with neither an
    [error] nor a [recommended_template] key, [generate_pr_description]
    raises [KeyError('recommended_template')] out of the workflow, after the
    summarize and classify AI calls and before the fill call. *)
Theorem X9_template_without_recommendation_raises self wd base E s d rest kvs t r tkvs :
  session self = true ->
  mem "analyze_file_changes" (available_tools self) = true ->
  mem "suggest_template" (available_tools self) = true ->
  tool_backend E "analyze_file_changes" (changes_args base wd) = inr (TextContent d :: rest) ->
  json_loads E d = Some (JObj kvs) ->
  existsb (fun kv => String.eqb (fst kv) "error") kvs = false ->
  tool_backend E "suggest_template"
    [("changes_summary", PStr (ai_reply E pr_analysis_prompt d));
     ("change_type",
      PStr (lower (strip (ai_reply E change_type_prompt (ai_reply E pr_analysis_prompt d)))))]
    = inr (TextContent t :: r) ->
  json_loads E t = Some (JObj tkvs) ->
  existsb (fun kv => String.eqb (fst kv) "error") tkvs = false ->
  existsb (fun kv => String.eqb (fst kv) "recommended_template") tkvs = false ->
  fst (generate_pr_description self wd base E s) = Err (KeyError "'recommended_template'") /\
  count_ai (log (snd (generate_pr_description self wd base E s))) = S (S (count_ai (log s))).
Proof.
  intros Hs Ha Ht Hb Hj Hk Hbt Htj Htk Htr.
  assert (Hl : obj_lookup "recommended_template" tkvs = None).
  { destruct (obj_lookup "recommended_template" tkvs) as [v|] eqn:E'; [|reflexivity].
    apply obj_lookup_key in E'; congruence. }
  run_to_template Hs Ha Ht Hb Hj Hk Hbt Htj.
  step; rewrite Htk; cbn [negb].
  step; step; step.
  erewrite bind_err; [| unfold json_getitem; rewrite Hl; reflexivity].
  split; reflexivity.
Qed.

Lemma X9_template_without_recommendation_raises_witness :
  fst (generate_pr_description c1_client None "main"
         {| tool_backend := fun _ _ => inr [TextContent "{}"];
            gemini_backend := fun _ => inr "feature";
            json_loads := fun _ => Some (JObj [("template_content", JStr "## Summary")]);
            py_str := fun _ => ""; http_post := fun _ _ _ => inl "offline";
            pyperclip_installed := false;
  file_write := fun _ _ => None; clipboard_copy := fun _ => None |} empty_st)
  = Err (KeyError "'recommended_template'").
Proof.
  apply (X9_template_without_recommendation_raises c1_client None "main"
           {| tool_backend := fun _ _ => inr [TextContent "{}"];
              gemini_backend := fun _ => inr "feature";
              json_loads := fun _ => Some (JObj [("template_content", JStr "## Summary")]);
              py_str := fun _ => ""; http_post := fun _ _ _ => inl "offline";
              pyperclip_installed := false;
  file_write := fun _ _ => None; clipboard_copy := fun _ => None |} empty_st
           "{}" [] [("template_content", JStr "## Summary")] "{}" []
           [("template_content", JStr "## Summary")]); reflexivity.
Defined.

(** X10: when the template tool's answer is not valid JSON,
    [generate_pr_description] prints the raw answer and the error
    ["Failed to parse template data"], returns normally, and makes no fill AI
    call: only the summarize and classify calls. *)
Theorem X10_template_parse_failure self wd base E s d rest kvs t r :
  session self = true ->
  mem "analyze_file_changes" (available_tools self) = true ->
  mem "suggest_template" (available_tools self) = true ->
  tool_backend E "analyze_file_changes" (changes_args base wd) = inr (TextContent d :: rest) ->
  json_loads E d = Some (JObj kvs) ->
  existsb (fun kv => String.eqb (fst kv) "error") kvs = false ->
  tool_backend E "suggest_template"
    [("changes_summary", PStr (ai_reply E pr_analysis_prompt d));
     ("change_type",
      PStr (lower (strip (ai_reply E change_type_prompt (ai_reply E pr_analysis_prompt d)))))]
    = inr (TextContent t :: r) ->
  json_loads E t = None ->
  fst (generate_pr_description self wd base E s) = Ok tt /\
  firstn 2 (log (snd (generate_pr_description self wd base E s))) =
    [Print ("❌ Error getting template: " ++ py_str E (JStr "Failed to parse template data"));
     Print ("❌ Raw template response: " ++ t)] /\
  count_ai (log (snd (generate_pr_description self wd base E s))) = S (S (count_ai (log s))).
Proof.
  intros Hs Ha Ht Hb Hj Hk Hbt Htj.
  run_to_template Hs Ha Ht Hb Hj Hk Hbt Htj.
  erewrite (bind_ok (json_in "error" _)); [| reflexivity]; cbn beta.
  replace (existsb (fun kv => String.eqb (fst kv) "error")
             [("error", JStr "Failed to parse template data"); ("raw", JStr t)])
    with true by reflexivity; cbn [negb].
  step. step.
  split; [|split]; reflexivity.
Qed.

Lemma X10_template_parse_failure_witness :
  fst (generate_pr_description c1_client None "main"
         {| tool_backend := fun n _ => if String.eqb n "suggest_template"
                                       then inr [TextContent "not json"]
                                       else inr [TextContent "{}"];
            gemini_backend := fun _ => inr "bug";
            json_loads := fun x => if String.eqb x "{}" then Some (JObj []) else None;
            py_str := fun _ => ""; http_post := fun _ _ _ => inl "offline";
            pyperclip_installed := false;
  file_write := fun _ _ => None; clipboard_copy := fun _ => None |} empty_st) = Ok tt.
Proof.
  apply (X10_template_parse_failure c1_client None "main"
           {| tool_backend := fun n _ => if String.eqb n "suggest_template"
                                         then inr [TextContent "not json"]
                                         else inr [TextContent "{}"];
              gemini_backend := fun _ => inr "bug";
              json_loads := fun x => if String.eqb x "{}" then Some (JObj []) else None;
              py_str := fun _ => ""; http_post := fun _ _ _ => inl "offline";
              pyperclip_installed := false;
  file_write := fun _ _ => None; clipboard_copy := fun _ => None |} empty_st
           "{}" [] [] "not json" []); reflexivity.
Defined.

(** ** main and the server search *)

(** X11: [find_server] returns the first path of the list that exists: it
    exists, it is in the list, and every path before it does not exist; it
    returns [None] only when no path of the list exists. *)
Theorem X11_find_server_first_existing path_exists paths :
  (forall p, find_server path_exists paths = Some p ->
     exists pre post, paths = app pre (p :: post) /\ path_exists p = true /\
                      Forall (fun q => path_exists q = false) pre) /\
  (find_server path_exists paths = None <-> Forall (fun q => path_exists q = false) paths).
Proof.
  induction paths as [|q paths [IH1 IH2]]; cbn; split.
  - discriminate.
  - split; constructor.
  - intros p; destruct (path_exists q) eqn:Hq.
    + intros [= <-]; exists [], paths; auto.
    + intros H; destruct (IH1 p H) as (pre & post & -> & Hp & Hpre).
      exists (q :: pre), post; auto.
  - destruct (path_exists q) eqn:Hq; split.
    + discriminate.
    + intros H; inversion H; congruence.
    + intros H; constructor; [exact Hq | apply IH2, H].
    + intros H; inversion H; apply IH2; assumption.
Qed.

Lemma try_handler_ok (m : M unit) (h : exn -> M unit) E s :
  (forall e E s, fst (h e E s) = Ok tt) ->
  fst (try_except m is_exception h E s) = Ok tt.
Proof.
  intros Hh; unfold try_except; destruct (m E s) as [[[]|e] s']; [reflexivity|apply Hh].
Qed.

(** X12: [main] never raises: whatever the key, the file system, the client
    construction and the connection do, it returns normally. *)
Theorem X12_main_never_raises gemini_api_key path_exists init connect E s :
  fst (main gemini_api_key path_exists init connect E s) = Ok tt.
Proof.
  unfold main; rewrite !bind_print; cbv zeta.
  destruct (negb _); [reflexivity|].
  destruct (find_server path_exists server_options); [|reflexivity].
  rewrite bind_print; destruct init; [reflexivity|].
  apply try_handler_ok; reflexivity.
Qed.

(** The events a run put in front of the trace [T]. *)
Ltac prefix_of L T :=
  lazymatch L with
  | T => constr:(@nil event)
  | ?x :: ?r => let p := prefix_of r T in constr:(x :: p)
  end.

Ltac trace_prefix :=
  lazymatch goal with
  | |- exists l, ?L = app l ?T /\ _ => let p := prefix_of L T in exists p
  end.

(** X13: [main] starts the connection only when [GEMINI_API_KEY] is set and
    non-empty, a server script exists and the Gemini client was built;
    otherwise the connection is never attempted, and [main] only prints. *)
Theorem X13_main_connects_only_when_ready gemini_api_key path_exists init connect connect' E s :
  (match gemini_api_key with Some k => String.eqb k "" | None => true end = true \/
   find_server path_exists server_options = None \/
   (exists m, init = inl m)) ->
  main gemini_api_key path_exists init connect E s =
  main gemini_api_key path_exists init connect' E s /\
  exists l, log (snd (main gemini_api_key path_exists init connect E s)) = app l (log s) /\
            Forall (fun ev => exists msg, ev = Print msg) l.
Proof.
  intros H; unfold main; rewrite !bind_print; cbv zeta.
  destruct H as [Hk | [Hf | [m ->]]].
  - destruct gemini_api_key as [k|]; [rewrite Hk|]; cbn [negb];
      (split; [reflexivity|]; cbv [bind print emit]; cbn [snd log stdin];
       trace_prefix; split; [reflexivity|]; repeat constructor; eexists; reflexivity).
  - destruct (negb _); [|rewrite Hf];
      (split; [reflexivity|]; cbv [bind print emit]; cbn [snd log stdin];
       trace_prefix; split; [reflexivity|]; repeat constructor; eexists; reflexivity).
  - destruct (negb _); [|destruct (find_server path_exists server_options)];
      (split; [reflexivity|]; cbv [bind print emit]; cbn [snd log stdin];
       trace_prefix; split; [reflexivity|]; repeat constructor; eexists; reflexivity).
Qed.

Lemma X13_main_connects_only_when_ready_witness :
  main (Some "") (fun _ => true) (inr tt) (fun _ => print "connected") c1_env empty_st =
  main (Some "") (fun _ => true) (inr tt) (fun _ => raise (RuntimeError "down")) c1_env empty_st.
Proof.
  apply (X13_main_connects_only_when_ready (Some "") (fun _ => true) (inr tt)
           (fun _ => print "connected") (fun _ => raise (RuntimeError "down")) c1_env empty_st).
  left; reflexivity.
Defined.

(** ** Errors of the PR workflow *)

Lemma generate_pr_description_missing_tool self wd base E s :
  session self = true ->
  mem "analyze_file_changes" (available_tools self) = false ->
  generate_pr_description self wd base E s =
  (Err (ValueError ("Tool '" ++ "analyze_file_changes" ++ "' not available. Available tools: "
                    ++ py_list_repr (keys (available_tools self)))),
   mkSt (Print (repeat_str 40 "=") :: Print "🔍 Analyzing PR Changes..." :: log s) (stdin s)).
Proof.
  intros Hs Hm; unfold generate_pr_description; rewrite !bind_print.
  unfold analyze_pr_changes, call_mcp_tool; rewrite Hs, Hm; reflexivity.
Qed.






Lemma interactive_iteration_missing_tool self E l line rest :
  session self = true ->
  mem "analyze_file_changes" (available_tools self) = false ->
  dispatch (lower (strip line)) = CmdAnalyze ->
  exists s',
    interactive_iteration self E (mkSt l (line :: rest)) =
    (Err (ValueError ("Tool '" ++ "analyze_file_changes" ++ "' not available. Available tools: "
                      ++ py_list_repr (keys (available_tools self)))), s') /\
    stdin s' = rest.
Proof.
  intros Hs Hm Hd; unfold interactive_iteration, try_except.
  erewrite (bind_ok (input _)); [| reflexivity]; cbn beta.
  rewrite Hd; cbn [run_command].
  erewrite bind_err; [| apply generate_pr_description_missing_tool; assumption].
  cbn [is_eof]; eexists; split; reflexivity.
Qed.

(** X15: the shell does not catch the errors of a workflow: when the
    operator asks for [analyze] (or [1]) and [analyze_file_changes] is not in
    the catalog, [interactive_mode] ends with that [ValueError], and the
    lines after the command stay unread. *)
Theorem X15_interactive_mode_propagates_tool_error self E l line rest :
  session self = true ->
  mem "analyze_file_changes" (available_tools self) = false ->
  dispatch (lower (strip line)) = CmdAnalyze ->
  fst (interactive_mode self E (mkSt l (line :: rest))) =
    Err (ValueError ("Tool '" ++ "analyze_file_changes" ++ "' not available. Available tools: "
                     ++ py_list_repr (keys (available_tools self)))) /\
  stdin (snd (interactive_mode self E (mkSt l (line :: rest)))) = rest.
Proof.
  intros Hs Hm Hd; unfold interactive_mode; rewrite !bind_print.
  erewrite (bind_ok get_state); [| reflexivity]; cbn beta.
  cbn [stdin log length interactive_loop].
  destruct (interactive_iteration_missing_tool self E (app shell_banner l) line rest Hs Hm Hd)
    as [s1 [H1 H2]].
  erewrite bind_err; [| erewrite bind_err; [reflexivity | exact H1]].
  split; [reflexivity | exact H2].
Qed.

Lemma X15_interactive_mode_propagates_tool_error_witness :
  fst (interactive_mode (connected ["get_workflow_status"]) c1_env
         (mkSt [] [" 1 "; "quit"])) =
  Err (ValueError ("Tool '" ++ "analyze_file_changes" ++ "' not available. Available tools: "
                   ++ py_list_repr ["get_workflow_status"])).
Proof.
  apply (X15_interactive_mode_propagates_tool_error (connected ["get_workflow_status"])
           c1_env [] " 1 " ["quit"]); reflexivity.
Defined.

Lemma interactive_iteration_quit self E l lines :
  match lines with [] => True | line :: _ => dispatch (lower (strip line)) = CmdQuit end ->
  interactive_iteration self E (mkSt l lines) =
  (Ok false, mkSt (Print "Enter command (or number): " :: l) (tl lines)).
Proof.
  intros Hd; unfold interactive_iteration, try_except.
  destruct lines as [|line rest]; [reflexivity|].
  erewrite (bind_ok (input _)); [| reflexivity]; cbn beta.
  rewrite Hd; reflexivity.
Qed.

(** X16: when the first line is a quit command ([quit], [exit], [q] or [7],
    in any case and with any surrounding blanks) or there is no input at all,
    [interactive_mode] prints its banner, the prompt and its goodbye, and
    does nothing else: it consumes exactly that one line. *)
Theorem X16_interactive_mode_quit self E l lines :
  match lines with [] => True | line :: _ => dispatch (lower (strip line)) = CmdQuit end ->
  interactive_mode self E (mkSt l lines) =
  (Ok tt, mkSt (Print "👋 Goodbye!" :: Print "Enter command (or number): "
                :: app shell_banner l) (tl lines)).
Proof.
  intros Hd; unfold interactive_mode; rewrite !bind_print.
  erewrite (bind_ok get_state); [| reflexivity]; cbn beta.
  cbn [stdin log length interactive_loop].
  erewrite bind_ok;
    [| erewrite bind_ok;
       [| exact (interactive_iteration_quit self E (app shell_banner l) lines Hd)];
       reflexivity].
  reflexivity.
Qed.

Lemma X16_interactive_mode_quit_witness :
  interactive_mode c1_client c1_env (mkSt [] [" Quit "; "analyze"]) =
  (Ok tt, mkSt (Print "👋 Goodbye!" :: Print "Enter command (or number): " :: shell_banner)
               ["analyze"]).
Proof.
  exact (X16_interactive_mode_quit c1_client c1_env [] [" Quit "; "analyze"] eq_refl).
Defined.

(** ** The choices after generation *)





(** ** Runs that append only events of a given kind *)

Definition appends (P : event -> Prop) {A} (m : M A) : Prop :=
  forall E s, exists l, log (snd (m E s)) = app l (log s) /\ Forall P l.

Section Appends.
Variable P : event -> Prop.

Lemma appends_ret {A} (a : A) : appends P (ret a).
Proof. intros E s; exists []; auto. Qed.

Lemma appends_raise {A} e : appends P (@raise A e).
Proof. intros E s; exists []; auto. Qed.

Lemma appends_emit ev : P ev -> appends P (emit ev).
Proof. intros H E s; exists [ev]; auto. Qed.

Lemma appends_ask : appends P ask.
Proof. intros E s; exists []; auto. Qed.

Lemma appends_bind {A B} (m : M A) (k : A -> M B) :
  appends P m -> (forall a, appends P (k a)) -> appends P (bind m k).
Proof.
  intros Hm Hk E s; unfold bind.
  destruct (Hm E s) as [l1 [H1 F1]].
  destruct (m E s) as [[a|e] s'] eqn:Hr; simpl in *.
  - destruct (Hk a E s') as [l2 [H2 F2]]; exists (app l2 l1).
    rewrite H2, H1; split; [apply app_assoc | apply Forall_app; auto].
  - exists l1; auto.
Qed.

Lemma appends_try {A} (m : M A) hd (h : exn -> M A) :
  appends P m -> (forall e, appends P (h e)) -> appends P (try_except m hd h).
Proof.
  intros Hm Hh E s; unfold try_except.
  destruct (Hm E s) as [l1 [H1 F1]].
  destruct (m E s) as [[a|e] s'] eqn:Hr; simpl in *; [exists l1; auto|].
  destruct (hd e); [|exists l1; auto].
  destruct (Hh e E s') as [l2 [H2 F2]]; exists (app l2 l1).
  rewrite H2, H1; split; [apply app_assoc | apply Forall_app; auto].
Qed.

Lemma appends_for_each {A} (f : A -> M unit) xs :
  (forall x, appends P (f x)) -> appends P (for_each f xs).
Proof.
  intros Hf; induction xs as [|x xs IH]; cbn; [apply appends_ret|].
  apply appends_bind; auto.
Qed.

Lemma appends_block_text b : appends P (block_text b).
Proof. destruct b; [apply appends_ret | apply appends_raise | apply appends_raise]. Qed.

Lemma appends_call_mcp_tool self n a :
  P (Print ("🔧 Calling tool: " ++ n)) -> (forall x, P (ToolCall n x)) ->
  appends P (call_mcp_tool self n a).
Proof.
  intros Hp Ht; unfold call_mcp_tool, session_call_tool.
  destruct (negb (session self)); [apply appends_raise|].
  destruct (negb _); [apply appends_raise|].
  apply appends_bind; [now apply appends_emit|]; intros _.
  apply appends_bind; [apply appends_bind; [apply appends_ask|]; intros E;
                       apply appends_bind; [now apply appends_emit|]; intros _;
                       destruct (tool_backend E n _);
                       [apply appends_raise | apply appends_ret]|].
  intros [|b bs]; [apply appends_ret | apply appends_block_text].
Qed.

Lemma appends_analyze_with_gemini p c :
  P (Print "🧠 Analyzing with Gemini...") -> (forall x, P (AICall x)) ->
  appends P (analyze_with_gemini p c).
Proof.
  intros Hp Ha; unfold analyze_with_gemini, generate_content.
  apply appends_try; [|intros; apply appends_ret].
  apply appends_bind; [now apply appends_emit|]; intros _.
  apply appends_bind; [apply appends_ask|]; intros E.
  apply appends_bind; [now apply appends_emit|]; intros _.
  destruct (gemini_backend E _); [apply appends_raise | apply appends_ret].
Qed.

End Appends.

Ltac solve_appends leaf :=
  repeat (intros; cbv beta zeta;
    lazymatch goal with
    | |- appends _ (bind _ _) => apply appends_bind
    | |- appends _ (try_except _ _ _) => apply appends_try
    | |- appends _ (for_each _ _) => apply appends_for_each
    | |- appends _ (if ?b then _ else _) => destruct b
    | |- appends _ (match ?x with _ => _ end) => destruct x
    | |- appends _ (print _) => apply appends_emit; leaf
    | |- appends _ (emit _) => apply appends_emit; leaf
    | |- appends _ (ret _) => apply appends_ret
    | |- appends _ (raise _) => apply appends_raise
    | |- appends _ ask => apply appends_ask
    | |- appends _ (call_mcp_tool _ _ _) =>
        apply appends_call_mcp_tool; [leaf | intros; leaf]
    | |- appends _ (analyze_with_gemini _ _) =>
        apply appends_analyze_with_gemini; [leaf | intros; leaf]
    end).

(** ** demo.py *)

Definition is_print (ev : event) : Prop := exists msg, ev = Print msg.

Lemma extends_for_each {A} (f : A -> M unit) xs :
  (forall x, extends (f x)) -> extends (for_each f xs).
Proof.
  intros Hf; induction xs as [|x xs IH]; cbn; [apply extends_ret|].
  apply extends_bind; auto.
Qed.

Lemma in_for_each {A} (g : A -> string) (h : A -> M unit) xs x E s :
  (forall y, extends (h y)) -> (forall y E s, fst (h y E s) = Ok tt) -> In x xs ->
  In (Print (g x)) (log (snd (for_each (fun y => print (g y) ;; h y) xs E s))).
Proof.
  intros Hh Hok; revert s; induction xs as [|y ys IH]; intros s Hin; [destruct Hin|].
  cbn [for_each]. destruct Hin as [<- | Hin].
  - apply in_trace_bind'; [| intros; apply extends_for_each; intros; solve_extends].
    apply in_trace_bind'; [left; reflexivity | intros; apply Hh].
  - unfold bind at 1; rewrite bind_print.
    specialize (Hok y E (mkSt (Print (g y) :: log s) (stdin s))).
    destruct (h y E _) as [[[]|e] s1]; [apply IH, Hin | discriminate].
Qed.

(** X18: [list_tools] only prints, and it prints a ["🔧 <name>"] line for
    every tool of the catalog. *)
Theorem X18_list_tools_lists_catalog self E s :
  (exists l, log (snd (list_tools self E s)) = app l (log s) /\ Forall is_print l) /\
  (forall k, In k (keys (available_tools self)) ->
             In (Print ("🔧 " ++ k)) (log (snd (list_tools self E s)))).
Proof.
  split.
  - revert E s; change (appends is_print (list_tools self)).
    unfold list_tools, print_description.
    solve_appends ltac:(eexists; reflexivity).
  - intros k Hk; unfold list_tools; rewrite !bind_print.
    apply in_map_iff in Hk as [nt [<- Hin]].
    apply (in_for_each (fun nt => "🔧 " ++ fst nt)
             (fun nt => print_description (snd nt) ;; print "")); [| |exact Hin].
    + intros y; unfold print_description; solve_extends.
    + intros y E' s'; unfold print_description; destruct (snd y) as [ds|]; [destruct (String.eqb ds "")|];
        reflexivity.
Qed.

Lemma forall_not_called name l :
  Forall (fun ev => tool_called name [ev] = false) l -> tool_called name l = false.
Proof.
  induction 1 as [|ev l Hev _ IH]; [reflexivity|].
  cbn in Hev |- *; rewrite orb_false_r in Hev; unfold tool_called in IH; rewrite Hev, IH.
  reflexivity.
Qed.

(** X19: the demo never calls [send_slack_notification] when
    [SLACK_WEBHOOK_URL] is unset, empty, or contains ["your_slack"] in any
    letter case (the template placeholder), whatever the server offers. *)
Theorem X19_demo_slack_guard tools_response prompts_response webhook_url E s :
  match webhook_url with
  | Some u => String.eqb u "" || contains_substring "your_slack" (lower u)
  | None => true
  end = true ->
  exists l, log (snd (demo_connection tools_response prompts_response webhook_url E s))
            = app l (log s) /\
            tool_called "send_slack_notification" l = false.
Proof.
  intros H.
  assert (Ha : appends (fun ev => tool_called "send_slack_notification" [ev] = false)
                 (demo_connection tools_response prompts_response webhook_url)).
  { unfold demo_connection; cbv zeta.
    destruct webhook_url as [u|].
    - rewrite <- negb_orb, H; cbn [negb].
      solve_appends reflexivity.
    - solve_appends reflexivity. }
  destruct (Ha E s) as [l [Hl Hf]]; exists l; split; [exact Hl | apply forall_not_called, Hf].
Qed.

Lemma X19_demo_slack_guard_witness :
  exists l, log (snd (demo_connection [("send_slack_notification", None)] (inl "none")
                        (Some "https://hooks.slack.com/services/YOUR_SLACK/URL") c1_env empty_st))
            = app l [] /\
            tool_called "send_slack_notification" l = false.
Proof.
  apply (X19_demo_slack_guard [("send_slack_notification", None)] (inl "none")
           (Some "https://hooks.slack.com/services/YOUR_SLACK/URL") c1_env empty_st).
  vm_compute; reflexivity.
Defined.

(** A run that returns normally with [ev] as its last event. *)
Definition finishes_with (ev : event) (m : M unit) : Prop :=
  forall E s, fst (m E s) = Ok tt /\ hd_error (log (snd (m E s))) = Some ev.

Definition returns (m : M unit) : Prop := forall E s, fst (m E s) = Ok tt.

Lemma returns_ret : returns (ret tt).
Proof. intros E s; reflexivity. Qed.

Lemma returns_print p : returns (print p).
Proof. intros E s; reflexivity. Qed.

Lemma returns_bind (m : M unit) (k : unit -> M unit) :
  returns m -> (forall u, returns (k u)) -> returns (bind m k).
Proof.
  intros Hm Hk E s; unfold bind; specialize (Hm E s).
  destruct (m E s) as [[[]|e] s']; [apply Hk | discriminate].
Qed.

Lemma returns_for_each {A} (f : A -> M unit) xs :
  (forall x, returns (f x)) -> returns (for_each f xs).
Proof.
  intros Hf; induction xs as [|x xs IH]; cbn; [apply returns_ret | apply returns_bind; auto].
Qed.

Lemma returns_try (m : M unit) (h : exn -> M unit) :
  (forall e, returns (h e)) -> returns (try_except m is_exception h).
Proof. intros Hh E s; apply try_handler_ok; intros e; apply Hh. Qed.

Lemma finishes_print p : finishes_with (Print p) (print p).
Proof. intros E s; split; reflexivity. Qed.

Lemma finishes_bind ev (m : M unit) (k : unit -> M unit) :
  returns m -> finishes_with ev (k tt) -> finishes_with ev (bind m k).
Proof.
  intros Hm Hk E s; unfold bind; specialize (Hm E s).
  destruct (m E s) as [[[]|e] s']; [apply Hk | discriminate].
Qed.

Ltac solve_returns :=
  repeat (intros; cbv beta zeta;
    lazymatch goal with
    | |- finishes_with _ (bind _ _) => apply finishes_bind
    | |- finishes_with _ (print _) => apply finishes_print
    | |- returns (bind _ _) => apply returns_bind
    | |- returns (try_except _ is_exception _) => apply returns_try
    | |- returns (for_each _ _) => apply returns_for_each
    | |- returns (match ?x with _ => _ end) => destruct x
    | |- returns (print _) => apply returns_print
    | |- returns (ret _) => apply returns_ret
    end).

(** X20: the demo never raises: each of its checks catches its own errors,
    and it always ends by printing the usage lines, the last one being
    ["3. python mcp_gemini_client.py interactive  # Interactive mode"]. *)
Theorem X20_demo_runs_to_completion tools_response prompts_response webhook_url E s :
  fst (demo_connection tools_response prompts_response webhook_url E s) = Ok tt /\
  hd_error (log (snd (demo_connection tools_response prompts_response webhook_url E s))) =
  Some (Print "3. python mcp_gemini_client.py interactive  # Interactive mode").
Proof.
  revert E s.
  change (finishes_with (Print "3. python mcp_gemini_client.py interactive  # Interactive mode")
            (demo_connection tools_response prompts_response webhook_url)).
  unfold demo_connection; solve_returns.
Qed.

(** ** The whole PR workflow *)


